(** * Ai-LMS frontend: the authenticated HTTP client and the analysis pages

    A shallow embedding of [frontend/src/services/api.ts] (the axios
    instance [api], its two interceptors and the [auth] facade) and of the
    [handleAnalyze] handlers of the three analysis pages, together with the
    properties the specification states about them.

    Conventions of the embedding.
    - [localStorage] is a finite map from keys to strings; [getItem] of a
      missing key is [None] (JavaScript's [null]).
    - A promise is modelled by its settlement: [inl v] for a fulfilled
      promise, [inr e] for a rejected one.  An [async] function that throws
      is a rejected promise.
    - The backend is an arbitrary deterministic function of the requests
      seen so far and of the current request; [None] stands for a transport
      failure (no response at all).
    - Every request handed to the network is appended to [network], the
      trace the theorems speak about.
    - Of the HTTP library the embedding keeps what the client relies on: a
      promise is fulfilled for a 2xx status and rejected otherwise; a
      rejection carries the configuration as it was sent ([error.config])
      and the response, if there was one; a configuration that is
      dispatched again keeps its headers and its private [_retry] marker;
      a call on the global [axios] object goes through no interceptor and
      has no base URL. *)

From Stdlib Require Import ZArith List Lia.
From stdpp Require Import base option strings gmap list.
From Equations Require Import Equations.
Import ListNotations.

Local Open Scope string_scope.
Local Open Scope Z_scope.
Local Open Scope list_scope.

Set Warnings "-register-all".

(** ** JavaScript values *)

(** The values that travel in request and response bodies.  A number is
    kept as its decimal rendering, which is all the code ever does with
    one (string conversion and display). *)
Inductive JsVal : Type :=
| JUndefined
| JNull
| JBool (b : bool)
| JNum (repr : string)
| JStr (s : string)
| JArr (items : list JsVal)
| JObj (fields : list (string * JsVal)).

(** [String(v)], as applied by [localStorage.setItem] and by template
    literals. *)
Fixpoint ToString (v : JsVal) : string :=
  match v with
  | JUndefined => "undefined"
  | JNull => "null"
  | JBool true => "true"
  | JBool false => "false"
  | JNum repr => repr
  | JStr s => s
  | JArr items =>
      let elt (x : JsVal) : string :=
        match x with
        | JUndefined | JNull => EmptyString
        | _ => ToString x
        end in
      (fix join (xs : list JsVal) : string :=
         match xs with
         | [] => EmptyString
         | [x] => elt x
         | x :: rest => elt x +:+ "," +:+ join rest
         end) items
  | JObj _ => "[object Object]"
  end.

(** Truthiness of a [string | null], as tested by [if (token)] and by
    [a || b]: [null] and the empty string are falsy. *)
Definition truthy (s : option string) : bool :=
  match s with
  | Some (String _ _) => true
  | Some EmptyString | None => false
  end.

(** A [string | null] as a value. *)
Definition of_nullable (s : option string) : JsVal :=
  match s with
  | Some x => JStr x
  | None => JNull
  end.

(** ** Requests, responses and errors *)

(** An axios request configuration.  [_retry] is the marker the response
    interceptor puts on a configuration it has already retried; it is
    absent ([false]) on a configuration built by a facade. *)
Record Config : Type := mkConfig {
  method : string;
  url : string;
  baseURL : option string;
  headers : gmap string string;
  payload : JsVal;
  _retry : bool
}.

Record Response : Type := mkResponse {
  status : Z;
  data : JsVal
}.

(** What reaches the wire: the configuration without the private marker. *)
Record Request : Type := mkRequest {
  req_method : string;
  req_url : string;
  req_baseURL : option string;
  req_headers : gmap string string;
  req_payload : JsVal
}.

Definition to_request (c : Config) : Request :=
  mkRequest (method c) (url c) (baseURL c) (headers c) (payload c).

(** The errors a promise of the client is rejected with.  An axios error
    carries the configuration of the failed request and, unless the failure
    was a transport failure, the response. *)
Inductive JsError : Type :=
| AxiosError (config : Config) (response : option Response)
| TypeError
| OtherError (message : string).

(** Settlement of a promise. *)
Definition Promise (A : Type) : Type := (A + JsError)%type.

(** Property access [v.k].  It throws on [undefined] and [null]; on every
    other value a missing property reads as [undefined]. *)
Fixpoint lookup_field (k : string) (fields : list (string * JsVal)) : JsVal :=
  match fields with
  | [] => JUndefined
  | (k', v) :: rest => if String.eqb k k' then v else lookup_field k rest
  end.

Definition get_prop (v : JsVal) (k : string) : Promise JsVal :=
  match v with
  | JUndefined | JNull => inr TypeError
  | JObj fields => inl (lookup_field k fields)
  | _ => inl JUndefined
  end.

(** ** The browser state *)

Record World : Type := mkWorld {
  localStorage : gmap string string;
  location_href : string;
  network : list Request
}.

Definition getItem (w : World) (k : string) : option string :=
  localStorage w !! k.

Definition setItem (w : World) (k v : string) : World :=
  mkWorld (<[k := v]> (localStorage w)) (location_href w) (network w).

Definition removeItem (w : World) (k : string) : World :=
  mkWorld (delete k (localStorage w)) (location_href w) (network w).

Definition set_location_href (w : World) (href : string) : World :=
  mkWorld (localStorage w) href (network w).

Definition record_request (w : World) (request : Request) : World :=
  mkWorld (localStorage w) (location_href w) (network w ++ [request]).

Definition set_retry (c : Config) (b : bool) : Config :=
  mkConfig (method c) (url c) (baseURL c) (headers c) (payload c) b.

Definition set_header (c : Config) (k v : string) : Config :=
  mkConfig (method c) (url c) (baseURL c) (<[k := v]> (headers c))
           (payload c) (_retry c).

(** ** The HTTP library *)

(** What the HTTP library does by default with a response status: a
    promise is fulfilled for a 2xx status and rejected otherwise. *)
Definition validateStatus (s : Z) : bool := (200 <=? s) && (s <? 300).

(** A backend: given the requests already received and the current one, a
    response, or [None] when the request never gets one. *)
Definition Backend : Type := list Request -> Request -> option Response.

(** The result of an intercepted rejection: either the promise settles, or
    the original request is dispatched again through [api] (the interceptor's
    [return api(originalRequest)]). *)
Inductive Intercepted : Type :=
| Settle (r : Promise Response)
| Redispatch (originalRequest : Config).

(** The usual device for remembering, in a [with] clause, the equation
    between a scrutinee and its value. *)
Definition inspect {A : Type} (a : A) : {b : A | a = b} := exist _ a eq_refl.

Section Client.

(** The backend the browser talks to, and the value of the environment
    variable [REACT_APP_API_URL] at build time. *)
Variable backend : Backend.
Variable REACT_APP_API_URL : option string.

(** The HTTP library's [settle]: fulfil or reject the promise of a request
    from what came back. *)
Definition settle (config : Config) (response : option Response)
  : Promise Response :=
  match response with
  | Some response =>
      if validateStatus (status response)
      then inl response
      else inr (AxiosError config (Some response))
  | None => inr (AxiosError config None)
  end.

(** The adapter of the HTTP library: put the request on the wire, record
    it, and settle the promise. *)
Definition send (w : World) (config : Config) : World * Promise Response :=
  let request := to_request config in
  (record_request w request, settle config (backend (network w) request)).

(** [process.env.REACT_APP_API_URL || 'http://localhost:8000'] *)
Definition api_baseURL : string :=
  if truthy REACT_APP_API_URL
  then default "http://localhost:8000" REACT_APP_API_URL
  else "http://localhost:8000".

(** The defaults of the instance made by [axios.create]. *)
Definition api_defaults (method url : string) (payload : JsVal) : Config :=
  mkConfig method url (Some api_baseURL)
           {[ "Content-Type" := "application/json" ]} payload false.

(** A call on the global [axios] object, which has no base URL, no default
    header of its own and no interceptor: [axios.post(url, data)]. *)
Definition axios_config (method url : string) (payload : JsVal) : Config :=
  mkConfig method url None ∅ payload false.

Definition axios_post (w : World) (url : string) (payload : JsVal)
  : World * Promise Response :=
  send w (axios_config "post" url payload).

(** The request interceptor of [api]. *)
Definition request_interceptor (w : World) (config : Config) : Config :=
  let token := getItem w "access_token" in
  if truthy token
  then set_header config "Authorization" ("Bearer " +:+ default EmptyString token)
  else config.

(** The [catch] block of the response interceptor. *)
Definition refresh_failed (w : World) (err : JsError) : World * Intercepted :=
  let w := removeItem w "access_token" in
  let w := removeItem w "refresh_token" in
  let w := set_location_href w "/login" in
  (w, Settle (inr err)).

(** The rejection handler of the response interceptor of [api]. *)
Definition response_interceptor (w : World) (error : JsError)
  : World * Intercepted :=
  match error with
  | AxiosError originalRequest (Some response) =>
      if (status response =? 401) && negb (_retry originalRequest)
      then
        let originalRequest := set_retry originalRequest true in
        let refreshToken := getItem w "refresh_token" in
        match axios_post w "/api/auth/refresh"
                (JObj [("refresh_token", of_nullable refreshToken)]) with
        | (w, inl response) =>
            match get_prop (data response) "access_token" with
            | inl access_token =>
                let w := setItem w "access_token" (ToString access_token) in
                let originalRequest :=
                  set_header originalRequest "Authorization"
                             ("Bearer " +:+ ToString access_token) in
                (w, Redispatch originalRequest)
            | inr err => refresh_failed w err
            end
        | (w, inr err) => refresh_failed w err
        end
      else (w, Settle (inr error))
  | _ =>
      (* [error.response] is [undefined]: reading [.status] throws *)
      (w, Settle (inr TypeError))
  end.

(** How many more times a configuration may be dispatched again. *)
Definition retries_left (config : Config) : nat :=
  if _retry config then 0%nat else 1%nat.

(** A call [api(config)] on the instance: request interceptor, dispatch,
    response interceptors.  The recursion is the interceptor's
    [return api(originalRequest)]; it is well founded because a
    configuration is dispatched again only when its marker goes from
    unset to set. *)
Equations? api (w : World) (config : Config) : World * Promise Response
  by wf (retries_left config) lt :=
api w config with inspect (send w (request_interceptor w config)) := {
  | exist _ (w1, inl response) _ => (w1, inl response)
  | exist _ (w1, inr error) Hsend
      with inspect (response_interceptor w1 error) := {
      | exist _ (w2, Settle r) _ => (w2, r)
      | exist _ (w2, Redispatch originalRequest) Hint =>
          api w2 originalRequest } }.
Proof.
  assert (Hsent : exists response,
             error = AxiosError (request_interceptor w config) response).
  { match goal with H : settle _ _ = inr _ |- _ => revert H end.
    unfold settle.
    destruct (backend _ _) as [r|]; [destruct (validateStatus _)|];
      intros [= <-]; eauto. }
  destruct Hsent as [response ->].
  match goal with H : settle _ _ = inr _ |- _ => clear H end.
  assert (Hmark : _retry (request_interceptor w config) = _retry config).
  { unfold request_interceptor. destruct (truthy _); reflexivity. }
  revert Hint. unfold response_interceptor, refresh_failed, retries_left.
  destruct response as [r|]; [|discriminate].
  rewrite Hmark. destruct (_retry config).
  - rewrite andb_false_r. discriminate.
  - destruct (status r =? 401); simpl; [|discriminate].
    destruct (settle _ _) as [resp|e]; [|discriminate].
    destruct (get_prop _ _); [|discriminate].
    intros [= _ <-]. simpl. lia.
Qed.

(** [api.post(url, data)] and [api.get(url)]. *)
Definition api_post (w : World) (url : string) (payload : JsVal)
  : World * Promise Response :=
  api w (api_defaults "post" url payload).

Definition api_get (w : World) (url : string) : World * Promise Response :=
  api w (api_defaults "get" url JUndefined).

(** [const response = await ...; return response.data;] *)
Definition response_data (p : World * Promise Response)
  : World * Promise JsVal :=
  match p with
  | (w, inl response) => (w, inl (data response))
  | (w, inr e) => (w, inr e)
  end.

(** [await ...;] in a function that returns nothing. *)
Definition response_void (p : World * Promise Response)
  : World * Promise JsVal :=
  match p with
  | (w, inl _) => (w, inl JUndefined)
  | (w, inr e) => (w, inr e)
  end.

End Client.

(** ** The facades *)

Record LoginCredentials : Type := mkLoginCredentials {
  login_email : string;
  login_password : string
}.

Record RegisterData : Type := mkRegisterData {
  register_email : string;
  register_password : string;
  register_name : string
}.

Module auth.
Section Facade.

Variable backend : Backend.
Variable REACT_APP_API_URL : option string.

Definition login (w : World) (credentials : LoginCredentials)
  : World * Promise JsVal :=
  response_data
    (api_post backend REACT_APP_API_URL w "/api/auth/login"
       (JObj [("email", JStr (login_email credentials));
              ("password", JStr (login_password credentials))])).

Definition register (w : World) (d : RegisterData) : World * Promise JsVal :=
  response_data
    (api_post backend REACT_APP_API_URL w "/api/auth/register"
       (JObj [("email", JStr (register_email d));
              ("password", JStr (register_password d));
              ("name", JStr (register_name d))])).

Definition logout (w : World) : World * Promise JsVal :=
  let refreshToken := getItem w "refresh_token" in
  match api_post backend REACT_APP_API_URL w "/api/auth/logout"
          (JObj [("refresh_token", of_nullable refreshToken)]) with
  | (w, inl _) =>
      let w := removeItem w "access_token" in
      let w := removeItem w "refresh_token" in
      (w, inl JUndefined)
  | (w, inr e) => (w, inr e)
  end.

Definition getCurrentUser (w : World) : World * Promise JsVal :=
  response_data (api_get backend REACT_APP_API_URL w "/api/auth/me").

Definition requestPasswordReset (w : World) (email : string)
  : World * Promise JsVal :=
  response_void
    (api_post backend REACT_APP_API_URL w "/api/auth/password-reset-request"
       (JObj [("email", JStr email)])).

Definition resetPassword (w : World) (token password : string)
  : World * Promise JsVal :=
  response_void
    (api_post backend REACT_APP_API_URL w "/api/auth/password-reset"
       (JObj [("token", JStr token); ("password", JStr password)])).

End Facade.
End auth.

(** ** Promises awaited together *)

(** A promise handed to [Promise.all]: how it settles, and when. *)
Record Settled : Type := mkSettled {
  settled_at : nat;
  outcome : Promise JsVal
}.

(** The earliest rejection among the promises, if any; among rejections
    at the same instant the one listed first. *)
Fixpoint first_rejection (ps : list Settled) : option (nat * JsError) :=
  match ps with
  | [] => None
  | p :: rest =>
      match outcome p, first_rejection rest with
      | inr e, Some (t, e') =>
          if (settled_at p <=? t)%nat then Some (settled_at p, e)
          else Some (t, e')
      | inr e, None => Some (settled_at p, e)
      | inl _, later => later
      end
  end.

Definition fulfilled_value (p : Settled) : JsVal :=
  match outcome p with
  | inl v => v
  | inr _ => JUndefined
  end.

(** [Promise.all(ps)]: rejected as soon as one promise is rejected, with
    that promise's reason; fulfilled with all the values otherwise. *)
Definition promise_all (ps : list Settled) : Promise (list JsVal) :=
  match first_rejection ps with
  | Some (_, e) => inr e
  | None => inl (map fulfilled_value ps)
  end.

(** Sequencing of steps that may throw. *)
Definition and_then {A B : Type} (p : Promise A) (k : A -> Promise B)
  : Promise B :=
  match p with
  | inl a => k a
  | inr e => inr e
  end.

Notation "'let*' x ':=' p 'in' k" := (and_then p (fun x => k))
  (at level 10, x name, p at level 100, k at level 200, only parsing).

(** Array destructuring: a missing position reads as [undefined]. *)
Definition at_index (vs : list JsVal) (i : nat) : JsVal := nth i vs JUndefined.

(** What a page shows of its state: the action control, the failure
    message block and the result block. *)
Record View (R : Type) : Type := mkView {
  button_disabled : bool;
  button_label : string;
  error_block : option string;
  result_block : option R
}.
Arguments mkView {R} _ _ _ _.
Arguments button_disabled {R} _.
Arguments button_label {R} _.
Arguments error_block {R} _.
Arguments result_block {R} _.

(** [error && <div>{error}</div>]: nothing is shown for [null] or for the
    empty string. *)
Definition shown_error (error : option string) : option string :=
  if truthy error then error else None.

(** ** pages/EmailAnalysis.tsx *)

Module EmailAnalysis.

Record AnalysisResult : Type := mkAnalysisResult {
  summary : JsVal;
  sentiment : JsVal;
  priority : JsVal;
  action_items : JsVal;
  reply_suggestions : JsVal
}.

Record EmailState : Type := mkEmailState {
  subject : string;
  content : string
}.

(** The [emailAI] facade as the page sees it: how each call settles. *)
Record EmailAI : Type := mkEmailAI {
  summarize : string -> string -> Settled;
  analyzeSentiment : string -> string -> Settled;
  classifyPriority : string -> string -> Settled;
  extractActions : string -> string -> Settled;
  generateReplies : string -> string -> Settled
}.

(** The component's state hooks, and what it wrote to the console. *)
Record State : Type := mkState {
  email : EmailState;
  loading : bool;
  result : option AnalysisResult;
  error : option string;
  console_error : list (string * JsError)
}.

Definition initial : State :=
  mkState (mkEmailState EmptyString EmptyString) false None None [].

Definition failure_message : string :=
  "Failed to analyze email. Please try again.".

Definition setLoading (st : State) (b : bool) : State :=
  mkState (email st) b (result st) (error st) (console_error st).

Definition setError (st : State) (e : option string) : State :=
  mkState (email st) (loading st) (result st) e (console_error st).

Definition setResult (st : State) (r : option AnalysisResult) : State :=
  mkState (email st) (loading st) r (error st) (console_error st).

Definition log_error (st : State) (label : string) (err : JsError) : State :=
  mkState (email st) (loading st) (result st) (error st)
          (console_error st ++ [(label, err)]).

(** The five calls of one action, in the order of the array. *)
Definition batch (emailAI : EmailAI) (st : State) : list Settled :=
  [ summarize emailAI (content (email st)) (subject (email st));
    analyzeSentiment emailAI (content (email st)) (subject (email st));
    classifyPriority emailAI (content (email st)) (subject (email st));
    extractActions emailAI (content (email st)) (subject (email st));
    generateReplies emailAI (content (email st)) (subject (email st)) ].

(** The body of the [try] block after [setError(null)]: the value handed
    to [setResult], or what is thrown. *)
Definition analysis (emailAI : EmailAI) (st : State) : Promise AnalysisResult :=
  let* results := promise_all (batch emailAI st) in
  let summaryResult := at_index results 0 in
  let sentimentResult := at_index results 1 in
  let priorityResult := at_index results 2 in
  let actionItemsResult := at_index results 3 in
  let replySuggestionsResult := at_index results 4 in
  let* summary := get_prop summaryResult "summary" in
  let* sentiment := get_prop sentimentResult "sentiment" in
  let* priority := get_prop priorityResult "priority" in
  let* action_items := get_prop actionItemsResult "action_items" in
  let* reply_suggestions :=
    get_prop replySuggestionsResult "reply_suggestions" in
  inl (mkAnalysisResult summary sentiment priority action_items
                        reply_suggestions).

(** The state while the calls are in flight. *)
Definition handleAnalyze_pending (st : State) : State :=
  setError (setLoading st true) None.

(** The state once [handleAnalyze] has run to its end. *)
Definition handleAnalyze (emailAI : EmailAI) (st : State) : State :=
  let st' := handleAnalyze_pending st in
  let st' :=
    match analysis emailAI st with
    | inl r => setResult st' (Some r)
    | inr err =>
        log_error (setError st' (Some failure_message)) "Analysis failed:" err
    end in
  setLoading st' false.

Definition render (st : State) : View AnalysisResult :=
  mkView (loading st || negb (truthy (Some (content (email st)))))
         (if loading st then "Analyzing..." else "Analyze Email")
         (shown_error (error st))
         (result st).

End EmailAnalysis.

(** ** pages/LifeBalance.tsx *)

Module LifeBalance.

Record LifeBalanceData : Type := mkLifeBalanceData {
  activities : list string;
  schedule : string;
  goals : list string
}.

Record AnalysisResult : Type := mkAnalysisResult {
  balance_score : JsVal;
  insights : JsVal;
  recommendations : JsVal;
  optimized_schedule : JsVal
}.

(** The [lifeBalanceAI] facade as the page sees it. *)
Record LifeBalanceAI : Type := mkLifeBalanceAI {
  calculateScores : list string -> Settled;
  generateInsights : list string -> Settled;
  getRecommendations : list string -> Settled;
  optimizeSchedule : list string -> string -> Settled
}.

Record State : Type := mkState {
  data : LifeBalanceData;
  loading : bool;
  result : option AnalysisResult;
  error : option string;
  newActivity : string;
  newGoal : string;
  console_error : list (string * JsError)
}.

Definition initial : State :=
  mkState (mkLifeBalanceData [] EmptyString []) false None None
          EmptyString EmptyString [].

Definition failure_message : string :=
  "Failed to analyze life balance. Please try again.".

Definition setLoading (st : State) (b : bool) : State :=
  mkState (data st) b (result st) (error st) (newActivity st) (newGoal st)
          (console_error st).

Definition setError (st : State) (e : option string) : State :=
  mkState (data st) (loading st) (result st) e (newActivity st) (newGoal st)
          (console_error st).

Definition setResult (st : State) (r : option AnalysisResult) : State :=
  mkState (data st) (loading st) r (error st) (newActivity st) (newGoal st)
          (console_error st).

Definition log_error (st : State) (label : string) (err : JsError) : State :=
  mkState (data st) (loading st) (result st) (error st) (newActivity st)
          (newGoal st) (console_error st ++ [(label, err)]).

Definition batch (lifeBalanceAI : LifeBalanceAI) (st : State) : list Settled :=
  [ calculateScores lifeBalanceAI (activities (data st));
    generateInsights lifeBalanceAI (activities (data st));
    getRecommendations lifeBalanceAI (activities (data st));
    optimizeSchedule lifeBalanceAI (activities (data st)) (schedule (data st)) ].

Definition analysis (lifeBalanceAI : LifeBalanceAI) (st : State)
  : Promise AnalysisResult :=
  let* results := promise_all (batch lifeBalanceAI st) in
  let balanceResult := at_index results 0 in
  let insightsResult := at_index results 1 in
  let recommendationsResult := at_index results 2 in
  let scheduleResult := at_index results 3 in
  let* balance_score := get_prop balanceResult "overall_score" in
  let* insights := get_prop insightsResult "insights" in
  let* recommendations := get_prop recommendationsResult "recommendations" in
  let* optimized_schedule := get_prop scheduleResult "optimized_schedule" in
  inl (mkAnalysisResult balance_score insights recommendations
                        optimized_schedule).

Definition handleAnalyze_pending (st : State) : State :=
  setError (setLoading st true) None.

Definition handleAnalyze (lifeBalanceAI : LifeBalanceAI) (st : State) : State :=
  let st' := handleAnalyze_pending st in
  let st' :=
    match analysis lifeBalanceAI st with
    | inl r => setResult st' (Some r)
    | inr err =>
        log_error (setError st' (Some failure_message)) "Analysis failed:" err
    end in
  setLoading st' false.

Definition render (st : State) : View AnalysisResult :=
  mkView (loading st
          || (length (activities (data st)) =? 0)%nat
          || negb (truthy (Some (schedule (data st))))
          || (length (goals (data st)) =? 0)%nat)
         (if loading st then "Analyzing..." else "Analyze Life Balance")
         (shown_error (error st))
         (result st).

End LifeBalance.

(** ** pages/Memory.tsx *)

Module Memory.

(** A study session; the two numeric fields are kept as integers. *)
Record StudySession : Type := mkStudySession {
  content : string;
  duration : Z;
  method : string;
  performance : Z
}.

Record AnalysisResult : Type := mkAnalysisResult {
  learning_style : JsVal;
  performance_metrics : JsVal;
  recommendations : JsVal;
  key_concepts : JsVal;
  review_questions : JsVal;
  knowledge_gaps : JsVal
}.

(** The [memoryAI] facade as the page sees it. *)
Record MemoryAI : Type := mkMemoryAI {
  identifyLearningStyle : list StudySession -> Settled;
  calculatePerformanceMetrics : list StudySession -> Settled;
  getStudyRecommendations : list StudySession -> Settled;
  extractKeyConceptsFromContent : string -> string -> Settled;
  generateReviewQuestions : string -> string -> Z -> Settled;
  analyzeKnowledgeGaps : list StudySession -> Settled
}.

Record State : Type := mkState {
  session : StudySession;
  loading : bool;
  result : option AnalysisResult;
  error : option string;
  console_error : list (string * JsError)
}.

Definition initial : State :=
  mkState (mkStudySession EmptyString 30 "reading" 7) false None None [].

Definition failure_message : string :=
  "Failed to analyze memory and learning. Please try again.".

Definition setLoading (st : State) (b : bool) : State :=
  mkState (session st) b (result st) (error st) (console_error st).

Definition setError (st : State) (e : option string) : State :=
  mkState (session st) (loading st) (result st) e (console_error st).

Definition setResult (st : State) (r : option AnalysisResult) : State :=
  mkState (session st) (loading st) r (error st) (console_error st).

Definition log_error (st : State) (label : string) (err : JsError) : State :=
  mkState (session st) (loading st) (result st) (error st)
          (console_error st ++ [(label, err)]).

Definition batch (memoryAI : MemoryAI) (st : State) : list Settled :=
  [ identifyLearningStyle memoryAI [session st];
    calculatePerformanceMetrics memoryAI [session st];
    getStudyRecommendations memoryAI [session st];
    extractKeyConceptsFromContent memoryAI (content (session st))
                                  (method (session st));
    generateReviewQuestions memoryAI (content (session st))
                            (method (session st)) 5;
    analyzeKnowledgeGaps memoryAI [session st] ].

Definition analysis (memoryAI : MemoryAI) (st : State)
  : Promise AnalysisResult :=
  let* results := promise_all (batch memoryAI st) in
  let styleResult := at_index results 0 in
  let metricsResult := at_index results 1 in
  let recommendationsResult := at_index results 2 in
  let conceptsResult := at_index results 3 in
  let questionsResult := at_index results 4 in
  let gapsResult := at_index results 5 in
  let* learning_style := get_prop styleResult "learning_style" in
  let* performance_metrics := get_prop metricsResult "metrics" in
  let* recommendations := get_prop recommendationsResult "recommendations" in
  let* key_concepts := get_prop conceptsResult "concepts" in
  let* review_questions := get_prop questionsResult "questions" in
  let* knowledge_gaps := get_prop gapsResult "gaps" in
  inl (mkAnalysisResult learning_style performance_metrics recommendations
                        key_concepts review_questions knowledge_gaps).

Definition handleAnalyze_pending (st : State) : State :=
  setError (setLoading st true) None.

Definition handleAnalyze (memoryAI : MemoryAI) (st : State) : State :=
  let st' := handleAnalyze_pending st in
  let st' :=
    match analysis memoryAI st with
    | inl r => setResult st' (Some r)
    | inr err =>
        log_error (setError st' (Some failure_message)) "Analysis failed:" err
    end in
  setLoading st' false.

Definition render (st : State) : View AnalysisResult :=
  mkView (loading st || negb (truthy (Some (content (session st)))))
         (if loading st then "Analyzing..." else "Analyze Learning")
         (shown_error (error st))
         (result st).

End Memory.

(** ** The other facades of services/api.ts *)

(** An optional string argument ([subject?: string]). *)
Definition of_optional (s : option string) : JsVal :=
  match s with
  | Some x => JStr x
  | None => JUndefined
  end.

Module emailAI.
Section Facade.

Variable backend : Backend.
Variable REACT_APP_API_URL : option string.

Definition email_body (content : string) (subject : option string) : JsVal :=
  JObj [("content", JStr content); ("subject", of_optional subject)].

Definition summarize (w : World) (content : string) (subject : option string)
  : World * Promise JsVal :=
  response_data
    (api_post backend REACT_APP_API_URL w "/api/email/summarize"
              (email_body content subject)).

Definition analyzeSentiment (w : World) (content : string)
    (subject : option string) : World * Promise JsVal :=
  response_data
    (api_post backend REACT_APP_API_URL w "/api/email/sentiment"
              (email_body content subject)).

Definition classifyPriority (w : World) (content : string)
    (subject : option string) : World * Promise JsVal :=
  response_data
    (api_post backend REACT_APP_API_URL w "/api/email/priority"
              (email_body content subject)).

Definition extractActions (w : World) (content : string)
    (subject : option string) : World * Promise JsVal :=
  response_data
    (api_post backend REACT_APP_API_URL w "/api/email/actions"
              (email_body content subject)).

Definition generateReplies (w : World) (content : string)
    (subject : option string) : World * Promise JsVal :=
  response_data
    (api_post backend REACT_APP_API_URL w "/api/email/replies"
              (email_body content subject)).

End Facade.
End emailAI.

Module lifeBalanceAI.
Section Facade.

Variable backend : Backend.
Variable REACT_APP_API_URL : option string.

Definition activities_body (activities : list string) : JsVal :=
  JObj [("activities", JArr (map JStr activities))].

Definition calculateScores (w : World) (activities : list string)
  : World * Promise JsVal :=
  response_data
    (api_post backend REACT_APP_API_URL w "/api/life-balance/scores"
              (activities_body activities)).

Definition generateInsights (w : World) (activities : list string)
  : World * Promise JsVal :=
  response_data
    (api_post backend REACT_APP_API_URL w "/api/life-balance/insights"
              (activities_body activities)).

Definition getRecommendations (w : World) (activities : list string)
  : World * Promise JsVal :=
  response_data
    (api_post backend REACT_APP_API_URL w "/api/life-balance/recommendations"
              (activities_body activities)).

Definition optimizeSchedule (w : World) (activities : list string)
    (schedule : string) : World * Promise JsVal :=
  response_data
    (api_post backend REACT_APP_API_URL w "/api/life-balance/optimize"
              (JObj [("activities", JArr (map JStr activities));
                     ("schedule", JStr schedule)])).

End Facade.
End lifeBalanceAI.

(** ** contexts/AuthContext.tsx *)

Module AuthContext.

(** The provider's state hooks, the routes it navigated to and what it
    wrote to the console. *)
Record State : Type := mkState {
  user : JsVal;
  loading : bool;
  error : option string;
  navigated : list string;
  console_error : list (string * JsError)
}.

Definition initial : State := mkState JNull true None [] [].

Definition setUser (st : State) (u : JsVal) : State :=
  mkState u (loading st) (error st) (navigated st) (console_error st).

Definition setLoading (st : State) (b : bool) : State :=
  mkState (user st) b (error st) (navigated st) (console_error st).

Definition setError (st : State) (e : option string) : State :=
  mkState (user st) (loading st) e (navigated st) (console_error st).

Definition navigate (st : State) (route : string) : State :=
  mkState (user st) (loading st) (error st) (navigated st ++ [route])
          (console_error st).

Definition log_error (st : State) (label : string) (err : JsError) : State :=
  mkState (user st) (loading st) (error st) (navigated st)
          (console_error st ++ [(label, err)]).

Definition login_failed : string :=
  "Login failed. Please check your credentials.".

Definition registration_failed : string :=
  "Registration failed. Please try again.".

Definition reset_request_failed : string :=
  "Password reset request failed. Please try again.".

Definition reset_failed : string :=
  "Password reset failed. Please try again.".

Section Provider.

Variable backend : Backend.
Variable REACT_APP_API_URL : option string.

(** [auth.login] and [auth.register] post the object they are given.  The
    provider hands them the literals [{ username, password }] and
    [{ email, username, password }]. *)
Definition auth_login (w : World) (credentials : JsVal)
  : World * Promise JsVal :=
  response_data
    (api_post backend REACT_APP_API_URL w "/api/auth/login" credentials).

Definition auth_register (w : World) (d : JsVal) : World * Promise JsVal :=
  response_data
    (api_post backend REACT_APP_API_URL w "/api/auth/register" d).

Definition checkAuth (w : World) (st : State) : World * State :=
  let '(w, st) :=
    if truthy (getItem w "access_token")
    then
      match auth.getCurrentUser backend REACT_APP_API_URL w with
      | (w, inl u) => (w, setUser st u)
      | (w, inr err) => (w, log_error st "Auth check failed:" err)
      end
    else (w, st) in
  (w, setLoading st false).

Definition login (w : World) (st : State) (username password : string)
  : World * State * Promise JsVal :=
  let st := setError st None in
  match auth_login w (JObj [("username", JStr username);
                            ("password", JStr password)]) with
  | (w, inl _) =>
      match auth.getCurrentUser backend REACT_APP_API_URL w with
      | (w, inl u) =>
          (w, navigate (setUser st u) "/dashboard", inl JUndefined)
      | (w, inr err) => (w, setError st (Some login_failed), inr err)
      end
  | (w, inr err) => (w, setError st (Some login_failed), inr err)
  end.

Definition logout (w : World) (st : State) : World * State :=
  match auth.logout backend REACT_APP_API_URL w with
  | (w, inl _) => (w, navigate (setUser st JNull) "/login")
  | (w, inr err) => (w, log_error st "Logout failed:" err)
  end.

Definition register (w : World) (st : State)
    (email username password : string) : World * State * Promise JsVal :=
  let st := setError st None in
  match auth_register w (JObj [("email", JStr email);
                               ("username", JStr username);
                               ("password", JStr password)]) with
  | (w, inl _) =>
      match login w st username password with
      | (w, st, inl _) => (w, st, inl JUndefined)
      | (w, st, inr err) =>
          (w, setError st (Some registration_failed), inr err)
      end
  | (w, inr err) => (w, setError st (Some registration_failed), inr err)
  end.

Definition requestPasswordReset (w : World) (st : State) (email : string)
  : World * State * Promise JsVal :=
  let st := setError st None in
  match auth.requestPasswordReset backend REACT_APP_API_URL w email with
  | (w, inl _) => (w, st, inl JUndefined)
  | (w, inr err) => (w, setError st (Some reset_request_failed), inr err)
  end.

Definition resetPassword (w : World) (st : State)
    (token newPassword : string) : World * State * Promise JsVal :=
  let st := setError st None in
  match auth.resetPassword backend REACT_APP_API_URL w token newPassword with
  | (w, inl _) => (w, navigate st "/login", inl JUndefined)
  | (w, inr err) => (w, setError st (Some reset_failed), inr err)
  end.

End Provider.
End AuthContext.

(** ** App.tsx: where the root route leads *)

Module App.

Definition root_redirect (w : World) : string :=
  if truthy (getItem w "access_token") then "/dashboard" else "/login".

End App.

(** ** The input handlers of the pages *)

(** [l.filter((x, i) => keep(x, i))], with [i] counted from [from]. *)
Fixpoint filter_from {A : Type} (keep : A -> nat -> bool) (from : nat)
    (l : list A) : list A :=
  match l with
  | [] => []
  | x :: rest =>
      if keep x from
      then x :: filter_from keep (S from) rest
      else filter_from keep (S from) rest
  end.

Module LifeBalanceForm.
Section Handlers.

(** [String.prototype.trim]. *)
Variable trim : string -> string.

Definition setData (st : LifeBalance.State)
    (f : LifeBalance.LifeBalanceData -> LifeBalance.LifeBalanceData)
  : LifeBalance.State :=
  LifeBalance.mkState (f (LifeBalance.data st)) (LifeBalance.loading st)
    (LifeBalance.result st) (LifeBalance.error st)
    (LifeBalance.newActivity st) (LifeBalance.newGoal st)
    (LifeBalance.console_error st).

Definition setNewActivity (st : LifeBalance.State) (v : string)
  : LifeBalance.State :=
  LifeBalance.mkState (LifeBalance.data st) (LifeBalance.loading st)
    (LifeBalance.result st) (LifeBalance.error st)
    v (LifeBalance.newGoal st) (LifeBalance.console_error st).

Definition setNewGoal (st : LifeBalance.State) (v : string)
  : LifeBalance.State :=
  LifeBalance.mkState (LifeBalance.data st) (LifeBalance.loading st)
    (LifeBalance.result st) (LifeBalance.error st)
    (LifeBalance.newActivity st) v (LifeBalance.console_error st).

Definition handleScheduleChange (st : LifeBalance.State) (value : string)
  : LifeBalance.State :=
  setData st (fun prev =>
    LifeBalance.mkLifeBalanceData (LifeBalance.activities prev) value
                                  (LifeBalance.goals prev)).

Definition addActivity (st : LifeBalance.State) : LifeBalance.State :=
  let newActivity := LifeBalance.newActivity st in
  if truthy (Some (trim newActivity))
  then
    setNewActivity
      (setData st (fun prev =>
         LifeBalance.mkLifeBalanceData
           (LifeBalance.activities prev ++ [trim newActivity])
           (LifeBalance.schedule prev) (LifeBalance.goals prev)))
      EmptyString
  else st.

Definition addGoal (st : LifeBalance.State) : LifeBalance.State :=
  let newGoal := LifeBalance.newGoal st in
  if truthy (Some (trim newGoal))
  then
    setNewGoal
      (setData st (fun prev =>
         LifeBalance.mkLifeBalanceData
           (LifeBalance.activities prev) (LifeBalance.schedule prev)
           (LifeBalance.goals prev ++ [trim newGoal])))
      EmptyString
  else st.

Definition removeActivity (st : LifeBalance.State) (index : nat)
  : LifeBalance.State :=
  setData st (fun prev =>
    LifeBalance.mkLifeBalanceData
      (filter_from (fun _ i => negb (i =? index)%nat) 0
                   (LifeBalance.activities prev))
      (LifeBalance.schedule prev) (LifeBalance.goals prev)).

Definition removeGoal (st : LifeBalance.State) (index : nat)
  : LifeBalance.State :=
  setData st (fun prev =>
    LifeBalance.mkLifeBalanceData
      (LifeBalance.activities prev) (LifeBalance.schedule prev)
      (filter_from (fun _ i => negb (i =? index)%nat) 0
                   (LifeBalance.goals prev))).

End Handlers.
End LifeBalanceForm.

(** ** Vocabulary of the statements *)

(** The request the response interceptor sends to renew the access token. *)
Definition refresh_request (refreshToken : option string) : Request :=
  to_request
    (axios_config "post" "/api/auth/refresh"
                  (JObj [("refresh_token", of_nullable refreshToken)])).

(** A request that asks the refresh endpoint for a new access token. *)
Definition is_refresh (request : Request) : Prop :=
  req_method request = "post" /\ req_url request = "/api/auth/refresh"
  /\ exists token, req_payload request = JObj [("refresh_token", token)].

(** A request that dispatches [config]: same method, address and body. *)
Definition dispatch_of (config : Config) (request : Request) : Prop :=
  req_method request = method config /\ req_url request = url config
  /\ req_baseURL request = baseURL config
  /\ req_payload request = payload config.

(** The configuration the interceptor dispatches again after a refresh
    that returned [access_token]. *)
Definition retried (config : Config) (access_token : string) : Config :=
  set_header (set_retry config true) "Authorization"
             ("Bearer " +:+ access_token).

(** How a dispatch that the interceptor does not retry settles for the
    caller of [api]. *)
Definition not_retried (config : Config) (response : option Response)
  : Promise Response :=
  match response with
  | Some _ => settle config response
  | None => inr TypeError
  end.

(** The response an error carries, if any: [error.response]. *)
Definition error_response (error : JsError) : option Response :=
  match error with
  | AxiosError _ response => response
  | _ => None
  end.

(** The store and the location after a refresh that failed. *)
Definition session_dropped (w : World) : World :=
  set_location_href
    (removeItem (removeItem w "access_token") "refresh_token") "/login".

(** An answer that makes the HTTP library reject the promise of the
    request: no response, or a status outside 2xx. *)
Definition rejected (answer : option Response) : Prop :=
  match answer with
  | Some response => validateStatus (status response) = false
  | None => True
  end.

(** A backend that never answers 401. *)
Definition never_401 (backend : Backend) : Prop :=
  forall history request r, backend history request = Some r -> status r <> 401.

(** What a facade call that makes one POST and is not retried comes to:
    the request on the wire, and the body of a 2xx response or the
    rejection. *)
Definition single_post (backend : Backend) (REACT_APP_API_URL : option string)
    (w : World) (path : string) (body : JsVal)
    (outcome : World * Promise JsVal) : Prop :=
  let config :=
    request_interceptor w (api_defaults REACT_APP_API_URL "post" path body) in
  outcome.1 = record_request w (to_request config)
  /\ outcome.2
     = match backend (network w) (to_request config) with
       | Some r =>
           if validateStatus (status r) then inl (data r)
           else inr (AxiosError config (Some r))
       | None => inr TypeError
       end.

(** A promise fulfilled with a body whose properties can be read. *)
Definition usable (p : Settled) : Prop :=
  exists v, outcome p = inl v /\ v <> JNull /\ v <> JUndefined.

(** A promise of the list that was rejected with [e], no later than any
    other rejected promise of the list. *)
Definition earliest_rejection (ps : list Settled) (e : JsError) : Prop :=
  exists p,
    In p ps /\ outcome p = inr e
    /\ forall q e', In q ps -> outcome q = inr e' ->
                    (settled_at p <= settled_at q)%nat.

(** ** Sample scenarios *)

(** A browser holding both tokens, one holding none, and one whose stored
    access token is the empty string. *)
Definition logged_in : World :=
  mkWorld {[ "access_token" := "old"; "refresh_token" := "r1" ]}
          "/dashboard" [].

Definition logged_out : World := mkWorld ∅ "/dashboard" [].

Definition blank_token : World :=
  mkWorld {[ "access_token" := EmptyString; "refresh_token" := "r1" ]}
          "/dashboard" [].

Definition unauthorized : Response :=
  mkResponse 401 (JObj [("detail", JStr "Not authenticated")]).

Definition forbidden : Response :=
  mkResponse 403 (JObj [("detail", JStr "Invalid refresh token")]).

Definition server_error : Response :=
  mkResponse 500 (JObj [("detail", JStr "Internal Server Error")]).

Definition profile : Response :=
  mkResponse 200 (JObj [("id", JStr "1"); ("email", JStr "a@b.c");
                        ("name", JStr "Ann")]).

Definition renewed : Response :=
  mkResponse 200 (JObj [("access_token", JStr "new")]).

(** Backends: one that answers 401 to everything, one that is down, one
    that fails with 500, one that rejects the access token and the refresh
    token alike, and one that accepts only the renewed access token. *)
Definition backend_401 : Backend := fun _ _ => Some unauthorized.

Definition backend_down : Backend := fun _ _ => None.

Definition backend_500 : Backend := fun _ _ => Some server_error.

Definition backend_ok : Backend := fun _ _ => Some profile.

Definition backend_expired : Backend :=
  fun _ request =>
    if String.eqb (req_url request) "/api/auth/refresh"
    then Some forbidden
    else Some unauthorized.

Definition backend_renewing : Backend :=
  fun _ request =>
    if String.eqb (req_url request) "/api/auth/refresh"
    then Some renewed
    else match req_headers request !! "Authorization" with
         | Some "Bearer new" => Some profile
         | _ => Some unauthorized
         end.

(** A backend that renews the access token but goes on answering 401. *)
Definition backend_stubborn : Backend :=
  fun _ request =>
    if String.eqb (req_url request) "/api/auth/refresh"
    then Some renewed
    else Some unauthorized.

(** The request of [auth.getCurrentUser], with the default base URL and
    with a configured one. *)
Definition me : Config := api_defaults None "get" "/api/auth/me" JUndefined.

Definition me_at (origin : string) : Config :=
  api_defaults (Some origin) "get" "/api/auth/me" JUndefined.

(** The facades of the page tests: every call is fulfilled, except that
    in the failing variants the first call is rejected with
    [new Error('API Error')]. *)
Definition api_error : JsError := OtherError "API Error".

Definition fulfilled (t : nat) (v : JsVal) : Settled := mkSettled t (inl v).

Definition emailAI_ok : EmailAnalysis.EmailAI :=
  EmailAnalysis.mkEmailAI
    (fun _ _ => fulfilled 1 (JObj [("summary", JStr "Email summary")]))
    (fun _ _ => fulfilled 2 (JObj [("sentiment", JStr "positive")]))
    (fun _ _ => fulfilled 3 (JObj [("priority", JStr "high")]))
    (fun _ _ => fulfilled 4
       (JObj [("action_items", JArr [JStr "Action 1"; JStr "Action 2"])]))
    (fun _ _ => fulfilled 5
       (JObj [("reply_suggestions", JArr [JStr "Reply 1"; JStr "Reply 2"])])).

Definition emailAI_failing : EmailAnalysis.EmailAI :=
  EmailAnalysis.mkEmailAI
    (fun _ _ => mkSettled 9 (inr api_error))
    (EmailAnalysis.analyzeSentiment emailAI_ok)
    (EmailAnalysis.classifyPriority emailAI_ok)
    (EmailAnalysis.extractActions emailAI_ok)
    (EmailAnalysis.generateReplies emailAI_ok).

Definition email_typed : EmailAnalysis.State :=
  EmailAnalysis.mkState
    (EmailAnalysis.mkEmailState "Test Subject" "Test Content")
    false None None [].

Definition lifeBalanceAI_ok : LifeBalance.LifeBalanceAI :=
  LifeBalance.mkLifeBalanceAI
    (fun _ => fulfilled 1 (JObj [("overall_score", JNum "7.5")]))
    (fun _ => fulfilled 2
       (JObj [("insights", JArr [JStr "Good work-life balance"])]))
    (fun _ => fulfilled 3
       (JObj [("recommendations", JArr [JStr "Take more breaks"])]))
    (fun _ _ => fulfilled 4
       (JObj [("optimized_schedule", JStr "Optimized schedule here")])).

Definition lifeBalanceAI_failing : LifeBalance.LifeBalanceAI :=
  LifeBalance.mkLifeBalanceAI
    (fun _ => mkSettled 9 (inr api_error))
    (LifeBalance.generateInsights lifeBalanceAI_ok)
    (LifeBalance.getRecommendations lifeBalanceAI_ok)
    (LifeBalance.optimizeSchedule lifeBalanceAI_ok).

Definition life_balance_typed : LifeBalance.State :=
  LifeBalance.mkState
    (LifeBalance.mkLifeBalanceData ["Exercise"] "Morning exercise"
                                   ["Stay healthy"])
    false None None EmptyString EmptyString [].

(** Backends whose refresh endpoint answers 200 with a body that has no
    [access_token], and with no body at all. *)
Definition backend_malformed : Backend :=
  fun _ request =>
    if String.eqb (req_url request) "/api/auth/refresh"
    then Some (mkResponse 200 (JObj [("token", JStr "new")]))
    else Some unauthorized.

Definition backend_empty_refresh : Backend :=
  fun _ request =>
    if String.eqb (req_url request) "/api/auth/refresh"
    then Some (mkResponse 200 JNull)
    else Some unauthorized.

(** A backend that accepts any login and hands out a pair of tokens. *)
Definition issued_tokens : Response :=
  mkResponse 200 (JObj [("access_token", JStr "a1");
                        ("refresh_token", JStr "r1")]).

Definition backend_login : Backend :=
  fun _ request =>
    if String.eqb (req_url request) "/api/auth/login"
    then Some issued_tokens
    else Some profile.

(** ** Facts about the client *)

Section ClientFacts.

Variable backend : Backend.

(** The defining equation of [api], in the shape of the source. *)
Lemma api_body w config :
  api backend w config =
  match send backend w (request_interceptor w config) with
  | (w1, inl response) => (w1, inl response)
  | (w1, inr error) =>
      match response_interceptor backend w1 error with
      | (w2, Settle r) => (w2, r)
      | (w2, Redispatch originalRequest) => api backend w2 originalRequest
      end
  end.
Proof.
  funelim (api backend w config); unfold send;
    repeat match goal with
      | H : settle _ _ = _ |- _ => rewrite H
      | H : response_interceptor _ _ _ = _ |- _ => rewrite H
      end;
    reflexivity.
Qed.

Lemma request_interceptor_retry w config :
  _retry (request_interceptor w config) = _retry config.
Proof. unfold request_interceptor. destruct (truthy _); reflexivity. Qed.

Lemma request_interceptor_dispatch w config :
  dispatch_of config (to_request (request_interceptor w config)).
Proof.
  unfold request_interceptor, dispatch_of.
  destruct (truthy _); simpl; auto.
Qed.

(** What the request interceptor makes of the [Authorization] header. *)
Lemma request_interceptor_authorization w config :
  headers (request_interceptor w config) !! "Authorization" =
  match getItem w "access_token" with
  | Some (String a s) => Some ("Bearer " +:+ String a s)
  | _ => headers config !! "Authorization"
  end.
Proof.
  unfold request_interceptor.
  destruct (getItem w "access_token") as [[|a s]|]; try reflexivity.
  cbn [truthy default id set_header headers].
  apply lookup_insert_eq.
Qed.

Lemma status_401_rejected (r : Response) :
  status r = 401 -> validateStatus (status r) = false.
Proof. intros ->. reflexivity. Qed.

(** A dispatch the interceptor does not retry: one request, and the
    promise settles from what came back. *)
Lemma api_once w config :
  (_retry config = true \/
   forall r, backend (network w) (to_request (request_interceptor w config))
             = Some r -> status r <> 401) ->
  api backend w config =
  (record_request w (to_request (request_interceptor w config)),
   not_retried (request_interceptor w config)
     (backend (network w) (to_request (request_interceptor w config)))).
Proof.
  intros Hno. rewrite api_body. unfold send.
  destruct (backend _ _) as [r|] eqn:Hb; [|reflexivity].
  unfold not_retried, settle.
  destruct (validateStatus (status r)); [reflexivity|].
  unfold response_interceptor.
  rewrite request_interceptor_retry.
  destruct Hno as [-> | Hno].
  - rewrite andb_false_r. reflexivity.
  - destruct (Z.eqb_spec (status r) 401) as [E|_]; [|reflexivity].
    exfalso. exact (Hno r eq_refl E).
Qed.

(** The first 401 of a request that was not retried yet. *)
Lemma api_first_401 w config r :
  _retry config = false ->
  backend (network w) (to_request (request_interceptor w config)) = Some r ->
  status r = 401 ->
  let c0 := request_interceptor w config in
  let w1 := record_request w (to_request c0) in
  let refreshToken := getItem w "refresh_token" in
  api backend w config =
  match settle (axios_config "post" "/api/auth/refresh"
                  (JObj [("refresh_token", of_nullable refreshToken)]))
               (backend (network w1) (refresh_request refreshToken)) with
  | inl response =>
      match get_prop (data response) "access_token" with
      | inl access_token =>
          api backend
              (setItem (record_request w1 (refresh_request refreshToken))
                       "access_token" (ToString access_token))
              (retried c0 (ToString access_token))
      | inr err =>
          (session_dropped (record_request w1 (refresh_request refreshToken)),
           inr err)
      end
  | inr err =>
      (session_dropped (record_request w1 (refresh_request refreshToken)),
       inr err)
  end.
Proof.
  intros Hretry Hb H401 c0 w1 refreshToken. subst c0 w1 refreshToken.
  rewrite api_body. unfold send. rewrite Hb.
  unfold settle at 1. rewrite (status_401_rejected r H401).
  unfold response_interceptor.
  rewrite request_interceptor_retry, Hretry, H401.
  cbn [Z.eqb Pos.eqb andb negb].
  unfold axios_post, send, refresh_request, session_dropped, refresh_failed,
    retried.
  destruct (settle _ _) as [response|err]; [|reflexivity].
  destruct (get_prop _ _) as [access_token|err]; reflexivity.
Qed.

Lemma is_refresh_refresh_request refreshToken :
  is_refresh (refresh_request refreshToken).
Proof. repeat split. eexists. reflexivity. Qed.

Lemma dispatch_of_retried config w access_token w' :
  dispatch_of config
    (to_request
       (request_interceptor w'
          (retried (request_interceptor w config) access_token))).
Proof.
  pose proof (request_interceptor_dispatch w'
                (retried (request_interceptor w config) access_token)) as H1.
  pose proof (request_interceptor_dispatch w config) as H0.
  unfold dispatch_of in *. simpl in *. intuition congruence.
Qed.

(** After a refresh the request interceptor finds the token it would
    attach already on the configuration. *)
Lemma request_interceptor_retried w config access_token :
  request_interceptor (setItem w "access_token" access_token)
                      (retried config access_token)
  = retried config access_token.
Proof.
  unfold request_interceptor, getItem, setItem. cbn [localStorage].
  rewrite lookup_insert_eq.
  destruct access_token as [|a s]; [reflexivity|].
  cbn [truthy default id]. unfold retried, set_header. cbn.
  f_equal. apply insert_insert_eq.
Qed.

(** The requests one call of [api] puts on the wire: the dispatch, then at
    most one refresh request, then at most one more dispatch. *)
Lemma api_trace w config :
  exists refreshes retries,
    network (api backend w config).1
    = network w ++ to_request (request_interceptor w config)
                :: refreshes ++ retries
    /\ (length refreshes <= 1)%nat /\ (length retries <= 1)%nat
    /\ Forall is_refresh refreshes
    /\ Forall (dispatch_of config) retries.
Proof.
  destruct (_retry config) eqn:Hretry.
  { rewrite api_once by (left; exact Hretry).
    exists [], []. cbn. auto. }
  destruct (backend (network w) (to_request (request_interceptor w config)))
    as [r|] eqn:Hb.
  2:{ rewrite api_once by (right; intros r; rewrite Hb; discriminate).
      exists [], []. cbn. auto. }
  destruct (Z.eq_dec (status r) 401) as [H401|Hother].
  2:{ rewrite api_once by (right; intros r'; rewrite Hb; congruence).
      exists [], []. cbn. auto. }
  rewrite (api_first_401 w config r Hretry Hb H401). cbv zeta.
  set (rr := refresh_request (getItem w "refresh_token")).
  assert (Hrr : Forall is_refresh [rr])
    by (repeat constructor; apply is_refresh_refresh_request).
  destruct (settle _ _) as [response|err].
  2:{ exists [rr], []. cbn. rewrite <- app_assoc. auto. }
  destruct (get_prop _ _) as [access_token|err].
  2:{ exists [rr], []. cbn. rewrite <- app_assoc. auto. }
  rewrite api_once by (left; reflexivity).
  eexists [rr], [_]. cbn. rewrite <- !app_assoc. cbn.
  split; [reflexivity|]. do 3 (split; [auto|]).
  constructor; [apply dispatch_of_retried | constructor].
Qed.

(** A first 401 always leads to one refresh request, followed by at most
    one more request. *)
Lemma api_first_401_trace w config r :
  _retry config = false ->
  backend (network w) (to_request (request_interceptor w config)) = Some r ->
  status r = 401 ->
  exists rest,
    network (api backend w config).1
    = network w ++ [to_request (request_interceptor w config);
                    refresh_request (getItem w "refresh_token")] ++ rest
    /\ (length rest <= 1)%nat.
Proof.
  intros Hretry Hb H401.
  rewrite (api_first_401 w config r Hretry Hb H401). cbv zeta.
  destruct (settle _ _) as [response|err].
  2:{ exists []. cbn. rewrite <- app_assoc. auto. }
  destruct (get_prop _ _) as [access_token|err].
  2:{ exists []. cbn. rewrite <- app_assoc. auto. }
  rewrite api_once by (left; reflexivity).
  eexists [_]. cbn. rewrite <- !app_assoc. cbn. auto.
Qed.

(** A first 401 whose refresh call is rejected. *)
Lemma api_rejected w config r :
  _retry config = false ->
  backend (network w) (to_request (request_interceptor w config)) = Some r ->
  status r = 401 ->
  let refreshToken := getItem w "refresh_token" in
  let answer :=
    backend (network w ++ [to_request (request_interceptor w config)])
            (refresh_request refreshToken) in
  rejected answer ->
  api backend w config
  = (session_dropped
       (record_request
          (record_request w (to_request (request_interceptor w config)))
          (refresh_request refreshToken)),
     inr (AxiosError
            (axios_config "post" "/api/auth/refresh"
               (JObj [("refresh_token", of_nullable refreshToken)]))
            answer)).
Proof.
  intros Hretry Hb H401 refreshToken answer Hrejected.
  subst refreshToken answer.
  rewrite (api_first_401 w config r Hretry Hb H401). cbv zeta.
  cbn [network record_request].
  destruct (backend _ (refresh_request _)) as [response|]; [|reflexivity].
  cbn in Hrejected. unfold settle. rewrite Hrejected. reflexivity.
Qed.

(** C1.  One call of [api] issues at most one refresh request and
    dispatches the original request at most once more, whatever the
    backend answers; and a request whose [_retry] marker is already set and
    that is answered 401 is rejected with that error after its single
    dispatch, with no refresh request. *)
Theorem refresh_and_retry_at_most_once :
  (forall w config,
     exists refreshes retries,
       network (api backend w config).1
       = network w ++ to_request (request_interceptor w config)
                   :: refreshes ++ retries
       /\ (length refreshes <= 1)%nat /\ (length retries <= 1)%nat
       /\ Forall is_refresh refreshes
       /\ Forall (dispatch_of config) retries)
  /\ (forall w config response,
        _retry config = true ->
        backend (network w) (to_request (request_interceptor w config))
          = Some response ->
        status response = 401 ->
        api backend w config
        = (record_request w (to_request (request_interceptor w config)),
           inr (AxiosError (request_interceptor w config) (Some response)))).
Proof.
  split; [exact api_trace|].
  intros w config response Hretry Hb H401.
  rewrite api_once by (left; exact Hretry).
  rewrite Hb. unfold not_retried, settle.
  rewrite (status_401_rejected _ H401). reflexivity.
Qed.

(** C6.  When the refresh call after a first 401 succeeds and returns an
    access token, that token is stored under [access_token], the original
    request gets the header [Authorization: Bearer <token>] and is
    dispatched exactly once more, and the caller gets what that dispatch
    settles to. *)
Theorem refresh_success_stores_token_and_retries_once
    w config r response access_token :
  _retry config = false ->
  backend (network w) (to_request (request_interceptor w config)) = Some r ->
  status r = 401 ->
  backend (network w ++ [to_request (request_interceptor w config)])
          (refresh_request (getItem w "refresh_token")) = Some response ->
  validateStatus (status response) = true ->
  get_prop (data response) "access_token" = inl (JStr access_token) ->
  let first := to_request (request_interceptor w config) in
  let refresh := refresh_request (getItem w "refresh_token") in
  let again := retried (request_interceptor w config) access_token in
  let w' := (api backend w config).1 in
  localStorage w' = <["access_token" := access_token]> (localStorage w)
  /\ location_href w' = location_href w
  /\ headers again !! "Authorization" = Some ("Bearer " +:+ access_token)
  /\ dispatch_of config (to_request again)
  /\ network w' = network w ++ [first; refresh; to_request again]
  /\ (api backend w config).2
     = not_retried again
         (backend (network w ++ [first; refresh]) (to_request again)).
Proof.
  intros Hretry Hb H401 Hrefresh Hok Htoken first refresh again w'.
  subst w' first refresh again.
  assert (Hapi :
    api backend w config
    = (record_request
         (setItem
            (record_request
               (record_request w (to_request (request_interceptor w config)))
               (refresh_request (getItem w "refresh_token")))
            "access_token" access_token)
         (to_request (retried (request_interceptor w config) access_token)),
       not_retried (retried (request_interceptor w config) access_token)
         (backend
            ((network w ++ [to_request (request_interceptor w config)])
               ++ [refresh_request (getItem w "refresh_token")])
            (to_request
               (retried (request_interceptor w config) access_token))))).
  { rewrite (api_first_401 w config r Hretry Hb H401). cbv zeta.
    cbn [network record_request].
    rewrite Hrefresh. unfold settle. rewrite Hok, Htoken.
    cbn [ToString].
    rewrite api_once by (left; reflexivity).
    rewrite request_interceptor_retried. reflexivity. }
  rewrite Hapi. clear Hapi. cbn [fst snd].
  pose proof (request_interceptor_dispatch w config) as Hd.
  cbn. rewrite <- !app_assoc. cbn.
  repeat split; try reflexivity; try apply Hd.
  apply lookup_insert_eq.
Qed.

(** C9.  The response interceptor reads [error.response.status] before
    anything else: an error without a response makes the interceptor throw
    a type error, so a request that fails in transport is rejected with the
    type error and not with the transport error. *)
Theorem transport_failure_becomes_type_error :
  (forall w error,
     error_response error = None ->
     response_interceptor backend w error = (w, Settle (inr TypeError)))
  /\ (forall w config,
        backend (network w) (to_request (request_interceptor w config)) = None ->
        api backend w config
        = (record_request w (to_request (request_interceptor w config)),
           inr TypeError)
        /\ (api backend w config).2
           <> inr (AxiosError (request_interceptor w config) None)).
Proof.
  split.
  - intros w [config [r|]| |message]; try discriminate; reflexivity.
  - intros w config Hb.
    rewrite api_once by (right; intros r; rewrite Hb; discriminate).
    rewrite Hb. split; [reflexivity|]. cbn. discriminate.
Qed.

(** C3, as the code has it.  When the refresh call issued after a first
    401 is rejected, both stored tokens are removed, the location is set to
    the login entry point, and the caller gets the error of the refresh
    call. *)
Theorem refresh_failure_drops_session w config r :
  _retry config = false ->
  backend (network w) (to_request (request_interceptor w config)) = Some r ->
  status r = 401 ->
  let refreshToken := getItem w "refresh_token" in
  let answer :=
    backend (network w ++ [to_request (request_interceptor w config)])
            (refresh_request refreshToken) in
  rejected answer ->
  let w' := (api backend w config).1 in
  getItem w' "access_token" = None
  /\ getItem w' "refresh_token" = None
  /\ location_href w' = "/login"
  /\ network w' = network w ++ [to_request (request_interceptor w config);
                               refresh_request refreshToken]
  /\ (api backend w config).2
     = inr (AxiosError
              (axios_config "post" "/api/auth/refresh"
                 (JObj [("refresh_token", of_nullable refreshToken)]))
              answer).
Proof.
  intros Hretry Hb H401 refreshToken answer Hrejected w'. subst w'.
  rewrite (api_rejected w config r Hretry Hb H401 Hrejected).
  unfold getItem, session_dropped. cbn.
  rewrite <- app_assoc. repeat split.
  - rewrite lookup_delete_ne by discriminate. apply lookup_delete_eq.
  - apply lookup_delete_eq.
Qed.

(** C2, as the code has it.  When a request that was not retried yet is
    answered 401 and no refresh token is stored, the refresh call is issued
    all the same, with a null [refresh_token] in its body; if that call is
    rejected, its error is what the caller gets. *)
Theorem refresh_attempted_without_refresh_token w config r :
  _retry config = false ->
  backend (network w) (to_request (request_interceptor w config)) = Some r ->
  status r = 401 ->
  getItem w "refresh_token" = None ->
  let answer :=
    backend (network w ++ [to_request (request_interceptor w config)])
            (refresh_request None) in
  (exists rest,
     network (api backend w config).1
     = network w ++ [to_request (request_interceptor w config);
                     refresh_request None] ++ rest
     /\ (length rest <= 1)%nat)
  /\ req_payload (refresh_request None) = JObj [("refresh_token", JNull)]
  /\ (rejected answer ->
      (api backend w config).2
      = inr (AxiosError
               (axios_config "post" "/api/auth/refresh"
                  (JObj [("refresh_token", JNull)]))
               answer)).
Proof.
  intros Hretry Hb H401 Hnone answer. subst answer.
  split; [|split; [reflexivity|]].
  - destruct (api_first_401_trace w config r Hretry Hb H401) as [rest H].
    rewrite Hnone in H. eauto.
  - intros Hrejected.
    pose proof (api_rejected w config r Hretry Hb H401) as H.
    cbv zeta in H. rewrite Hnone in H. rewrite (H Hrejected). reflexivity.
Qed.

(** C5, what the code does.  The refresh request is a POST to
    [/api/auth/refresh] with body [{refresh_token}], but it is made on the
    global HTTP object: it carries no base URL, whereas the request that
    triggered it carries the configured one. *)
Theorem refresh_request_has_no_base_url
    REACT_APP_API_URL w method url payload r :
  let config := api_defaults REACT_APP_API_URL method url payload in
  backend (network w) (to_request (request_interceptor w config)) = Some r ->
  status r = 401 ->
  exists first refresh rest,
    network (api backend w config).1 = network w ++ [first; refresh] ++ rest
    /\ req_baseURL first = Some (api_baseURL REACT_APP_API_URL)
    /\ req_method refresh = "post"
    /\ req_url refresh = "/api/auth/refresh"
    /\ req_payload refresh
       = JObj [("refresh_token", of_nullable (getItem w "refresh_token"))]
    /\ req_baseURL refresh = None.
Proof.
  intros config Hb H401.
  destruct (api_first_401_trace w config r eq_refl Hb H401) as [rest [H _]].
  eexists _, _, rest. split; [exact H|].
  repeat split.
  unfold request_interceptor. destruct (truthy _); reflexivity.
Qed.

(** C7, as the code has it.  The first request that a call built by a
    facade puts on the wire carries no [Authorization] header when no access
    token is stored or the stored one is the empty string, and carries
    [Authorization: Bearer <access_token>] when a non-empty one is stored. *)
Theorem authorization_header_follows_stored_token
    REACT_APP_API_URL w method url payload :
  exists first rest,
    network
      (api backend w (api_defaults REACT_APP_API_URL method url payload)).1
    = network w ++ first :: rest
    /\ req_headers first !! "Authorization"
       = match getItem w "access_token" with
         | Some (String a s) => Some ("Bearer " +:+ String a s)
         | _ => None
         end.
Proof.
  destruct (api_trace w (api_defaults REACT_APP_API_URL method url payload))
    as (refreshes & retries & H & _).
  eexists _, _. split; [exact H|].
  change (req_headers (to_request ?c)) with (headers c).
  rewrite request_interceptor_authorization.
  destruct (getItem w "access_token") as [[|a s]|]; reflexivity.
Qed.

End ClientFacts.

(** ** Facts about [auth.logout] *)

Section AuthFacts.

Variable backend : Backend.
Variable REACT_APP_API_URL : option string.

(** C4, as the code has it.  After [logout] returns normally both stored
    tokens are absent.  When the logout request is rejected, [logout]
    throws that error before its own removals: the store is the one the
    HTTP client left, which for a failure other than a 401 is the store as
    it was before the call. *)
Theorem logout_clears_tokens_when_request_succeeds w :
  let request :=
    api_defaults REACT_APP_API_URL "post" "/api/auth/logout"
      (JObj [("refresh_token", of_nullable (getItem w "refresh_token"))]) in
  let sent := to_request (request_interceptor w request) in
  let w' := (auth.logout backend REACT_APP_API_URL w).1 in
  (forall v,
     (auth.logout backend REACT_APP_API_URL w).2 = inl v ->
     getItem w' "access_token" = None /\ getItem w' "refresh_token" = None)
  /\ (forall e,
        (auth.logout backend REACT_APP_API_URL w).2 = inr e ->
        w' = (api backend w request).1
        /\ (api backend w request).2 = inr e)
  /\ (rejected (backend (network w) sent) ->
      (forall r, backend (network w) sent = Some r -> status r <> 401) ->
      localStorage w' = localStorage w
      /\ exists e,
           (auth.logout backend REACT_APP_API_URL w).2 = inr e
           /\ not_retried (request_interceptor w request)
                          (backend (network w) sent) = inr e).
Proof.
  intros request sent w'. subst w'.
  unfold auth.logout, api_post. fold request.
  split; [|split].
  - intros v. destruct (api backend w request) as [w1 [response|e]];
      [|discriminate].
    intros _. unfold getItem. cbn. split.
    + rewrite lookup_delete_ne by discriminate. apply lookup_delete_eq.
    + apply lookup_delete_eq.
  - intros e. destruct (api backend w request) as [w1 [response|e']];
      [discriminate|].
    cbn. intros [= ->]. auto.
  - intros Hrejected Hother.
    rewrite api_once by (right; exact Hother). fold sent.
    destruct (backend (network w) sent) as [r|]; cbn in Hrejected.
    + unfold not_retried, settle. rewrite Hrejected. cbn. eauto.
    + cbn. eauto.
Qed.

End AuthFacts.

(** ** The scenarios, run *)

Lemma refresh_and_retry_at_most_once_witness :
  api backend_401 logged_in (set_retry me true)
  = (record_request logged_in
       (to_request (request_interceptor logged_in (set_retry me true))),
     inr (AxiosError (request_interceptor logged_in (set_retry me true))
                     (Some unauthorized))).
Proof.
  apply (proj2 (refresh_and_retry_at_most_once backend_401)); reflexivity.
Defined.

(** A 401 that recurs after the refresh is final: three requests in all,
    one of them a refresh, and the caller gets the second 401. *)
Example second_401_is_final :
  map req_url (network (api backend_stubborn logged_in me).1)
  = ["/api/auth/me"; "/api/auth/refresh"; "/api/auth/me"]
  /\ (api backend_stubborn logged_in me).2
     = inr (AxiosError (retried (request_interceptor logged_in me) "new")
                       (Some unauthorized))
  /\ getItem (api backend_stubborn logged_in me).1 "access_token"
     = Some "new".
Proof. repeat split; vm_compute; reflexivity. Qed.

Lemma refresh_success_stores_token_and_retries_once_witness :
  getItem (api backend_renewing logged_in me).1 "access_token" = Some "new"
  /\ length (network (api backend_renewing logged_in me).1) = 3%nat
  /\ (api backend_renewing logged_in me).2 = inl profile.
Proof.
  destruct (refresh_success_stores_token_and_retries_once
              backend_renewing logged_in me unauthorized renewed "new"
              eq_refl eq_refl eq_refl eq_refl eq_refl eq_refl)
    as (Hstore & _ & _ & _ & Hnetwork & Hresult).
  unfold getItem. rewrite Hstore, Hnetwork, Hresult.
  repeat split.
Defined.

Lemma transport_failure_becomes_type_error_witness :
  api backend_down logged_in me
  = (record_request logged_in
       (to_request (request_interceptor logged_in me)),
     inr TypeError).
Proof.
  apply (proj2 (transport_failure_becomes_type_error backend_down)).
  reflexivity.
Defined.

Lemma refresh_failure_drops_session_witness :
  getItem (api backend_expired logged_in me).1 "access_token" = None
  /\ getItem (api backend_expired logged_in me).1 "refresh_token" = None
  /\ location_href (api backend_expired logged_in me).1 = "/login"
  /\ (api backend_expired logged_in me).2
     = inr (AxiosError
              (axios_config "post" "/api/auth/refresh"
                 (JObj [("refresh_token", JStr "r1")]))
              (Some forbidden)).
Proof.
  destruct (refresh_failure_drops_session backend_expired logged_in me
              unauthorized eq_refl eq_refl eq_refl eq_refl)
    as (Haccess & Hrefresh & Hhref & _ & Hresult).
  auto.
Defined.

(** C3 as stated fails: with an access token and a refresh token that the
    backend both rejects, the caller gets the 403 of the refresh call, not
    the 401 of the original request. *)
Lemma refresh_failure_propagates_refresh_error :
  backend_expired [] (to_request (request_interceptor logged_in me))
  = Some unauthorized
  /\ (api backend_expired logged_in me).2
     = inr (AxiosError
              (axios_config "post" "/api/auth/refresh"
                 (JObj [("refresh_token", JStr "r1")]))
              (Some forbidden))
  /\ forall config,
       (api backend_expired logged_in me).2
       <> inr (AxiosError config (Some unauthorized)).
Proof.
  split; [reflexivity|]. split; [vm_compute; reflexivity|].
  intros config. vm_compute. discriminate.
Qed.

Lemma refresh_attempted_without_refresh_token_witness :
  exists rest,
    network (api backend_expired logged_out me).1
    = [to_request (request_interceptor logged_out me); refresh_request None]
        ++ rest
    /\ (length rest <= 1)%nat.
Proof.
  apply (proj1 (refresh_attempted_without_refresh_token backend_expired
                  logged_out me unauthorized eq_refl eq_refl eq_refl eq_refl)).
Defined.

(** C2 as stated fails: with no refresh token stored, a first 401 is still
    followed by a refresh request, and the caller does not get the original
    error. *)
Lemma refresh_attempted_with_null_token :
  _retry me = false
  /\ getItem logged_out "refresh_token" = None
  /\ backend_expired (network logged_out)
       (to_request (request_interceptor logged_out me)) = Some unauthorized
  /\ network (api backend_expired logged_out me).1
     = [to_request (request_interceptor logged_out me); refresh_request None]
  /\ ~ (api backend_expired logged_out me
        = (record_request logged_out
             (to_request (request_interceptor logged_out me)),
           inr (AxiosError (request_interceptor logged_out me)
                           (Some unauthorized)))).
Proof.
  repeat split; try reflexivity.
  vm_compute. discriminate.
Qed.

Lemma refresh_request_has_no_base_url_witness :
  exists first refresh rest,
    network (api backend_expired logged_in (me_at "https://api.example.com")).1
    = [first; refresh] ++ rest
    /\ req_baseURL first = Some "https://api.example.com"
    /\ req_method refresh = "post"
    /\ req_url refresh = "/api/auth/refresh"
    /\ req_payload refresh = JObj [("refresh_token", JStr "r1")]
    /\ req_baseURL refresh = None.
Proof.
  apply (refresh_request_has_no_base_url backend_expired
           (Some "https://api.example.com") logged_in "get" "/api/auth/me"
           JUndefined unauthorized eq_refl eq_refl).
Defined.

(** C7 as stated fails: an access token is stored, the empty string, and
    the request carries no [Authorization] header at all. *)
Lemma blank_token_sends_no_authorization :
  getItem blank_token "access_token" = Some EmptyString
  /\ network (api backend_ok blank_token me).1 = [to_request me]
  /\ req_headers (to_request me) !! "Authorization" = None
  /\ req_headers (to_request me) !! "Authorization"
     <> Some ("Bearer " +:+ EmptyString).
Proof.
  repeat split; try reflexivity. discriminate.
Qed.

Lemma logout_clears_tokens_when_request_succeeds_witness :
  getItem (auth.logout backend_ok None logged_in).1 "access_token" = None
  /\ getItem (auth.logout backend_ok None logged_in).1 "refresh_token" = None.
Proof.
  apply (proj1 (logout_clears_tokens_when_request_succeeds
                  backend_ok None logged_in) JUndefined).
  reflexivity.
Defined.

(** C4 as stated fails: when the logout request is answered 500, [logout]
    throws and both tokens are still stored. *)
Lemma logout_failure_keeps_tokens :
  (auth.logout backend_500 None logged_in).2
  = inr (AxiosError
           (request_interceptor logged_in
              (api_defaults None "post" "/api/auth/logout"
                 (JObj [("refresh_token", JStr "r1")])))
           (Some server_error))
  /\ getItem (auth.logout backend_500 None logged_in).1 "access_token"
     = Some "old"
  /\ getItem (auth.logout backend_500 None logged_in).1 "refresh_token"
     = Some "r1".
Proof.
  repeat split; vm_compute; reflexivity.
Qed.

(** ** Facts about the pages *)

Lemma first_rejection_found ps p e :
  In p ps -> outcome p = inr e ->
  exists t e', first_rejection ps = Some (t, e').
Proof.
  induction ps as [|q ps IH]; intros Hin Hp; [destruct Hin|].
  destruct Hin as [-> | Hin]; cbn.
  - rewrite Hp. destruct (first_rejection ps) as [[t e']|]; [|eauto].
    destruct (settled_at p <=? t)%nat; eauto.
  - destruct (IH Hin Hp) as (t & e' & ->).
    destruct (outcome q); [eauto|].
    destruct (settled_at q <=? t)%nat; eauto.
Qed.

(** [Promise.all] is rejected as soon as one of its promises is. *)
Lemma promise_all_rejected ps p e :
  In p ps -> outcome p = inr e -> exists e', promise_all ps = inr e'.
Proof.
  intros Hin Hp. destruct (first_rejection_found ps p e Hin Hp) as (t & e' & H).
  unfold promise_all. rewrite H. eauto.
Qed.

Lemma email_analysis_rejected emailAI st p e :
  In p (EmailAnalysis.batch emailAI st) -> outcome p = inr e ->
  exists e', EmailAnalysis.analysis emailAI st = inr e'.
Proof.
  intros Hin Hp.
  destruct (promise_all_rejected _ p e Hin Hp) as [e' H].
  unfold EmailAnalysis.analysis. rewrite H. cbn. eauto.
Qed.

(** The state a failed action leaves: only [error], [loading] and the
    console change. *)
Lemma email_handleAnalyze_failed emailAI st err :
  EmailAnalysis.analysis emailAI st = inr err ->
  EmailAnalysis.handleAnalyze emailAI st
  = EmailAnalysis.mkState (EmailAnalysis.email st) false (EmailAnalysis.result st)
      (Some EmailAnalysis.failure_message)
      (EmailAnalysis.console_error st ++ [("Analysis failed:", err)]).
Proof. intros H. unfold EmailAnalysis.handleAnalyze. rewrite H. reflexivity. Qed.

Lemma life_balance_analysis_rejected lifeBalanceAI st p e :
  In p (LifeBalance.batch lifeBalanceAI st) -> outcome p = inr e ->
  exists e', LifeBalance.analysis lifeBalanceAI st = inr e'.
Proof.
  intros Hin Hp.
  destruct (promise_all_rejected _ p e Hin Hp) as [e' H].
  unfold LifeBalance.analysis. rewrite H. cbn. eauto.
Qed.

(** The state a failed action leaves: only [error], [loading] and the
    console change. *)
Lemma life_balance_handleAnalyze_failed lifeBalanceAI st err :
  LifeBalance.analysis lifeBalanceAI st = inr err ->
  LifeBalance.handleAnalyze lifeBalanceAI st
  = LifeBalance.mkState (LifeBalance.data st) false (LifeBalance.result st)
      (Some LifeBalance.failure_message)
      (LifeBalance.newActivity st) (LifeBalance.newGoal st)
      (LifeBalance.console_error st ++ [("Analysis failed:", err)]).
Proof. intros H. unfold LifeBalance.handleAnalyze. rewrite H. reflexivity. Qed.

Lemma memory_analysis_rejected memoryAI st p e :
  In p (Memory.batch memoryAI st) -> outcome p = inr e ->
  exists e', Memory.analysis memoryAI st = inr e'.
Proof.
  intros Hin Hp.
  destruct (promise_all_rejected _ p e Hin Hp) as [e' H].
  unfold Memory.analysis. rewrite H. cbn. eauto.
Qed.

(** The state a failed action leaves: only [error], [loading] and the
    console change. *)
Lemma memory_handleAnalyze_failed memoryAI st err :
  Memory.analysis memoryAI st = inr err ->
  Memory.handleAnalyze memoryAI st
  = Memory.mkState (Memory.session st) false (Memory.result st)
      (Some Memory.failure_message)
      (Memory.console_error st ++ [("Analysis failed:", err)]).
Proof. intros H. unfold Memory.handleAnalyze. rewrite H. reflexivity. Qed.

(** C8.  On each of the three analysis pages, if one of the calls issued
    together for an action is rejected, the page shows the one fixed failure
    message of that page, and the result block is what it was before the
    action: nothing of what the other calls returned is shown. *)
Theorem rejected_batch_shows_one_message_and_no_partial_result :
  (forall emailAI st p e,
     In p (EmailAnalysis.batch emailAI st) -> outcome p = inr e ->
     let st' := EmailAnalysis.handleAnalyze emailAI st in
     error_block (EmailAnalysis.render st')
     = Some "Failed to analyze email. Please try again."
     /\ result_block (EmailAnalysis.render st')
        = result_block (EmailAnalysis.render st)
     /\ EmailAnalysis.result st' = EmailAnalysis.result st
     /\ EmailAnalysis.loading st' = false)
  /\ (forall lifeBalanceAI st p e,
        In p (LifeBalance.batch lifeBalanceAI st) -> outcome p = inr e ->
        let st' := LifeBalance.handleAnalyze lifeBalanceAI st in
        error_block (LifeBalance.render st')
        = Some "Failed to analyze life balance. Please try again."
        /\ result_block (LifeBalance.render st')
           = result_block (LifeBalance.render st)
        /\ LifeBalance.result st' = LifeBalance.result st
        /\ LifeBalance.loading st' = false)
  /\ (forall memoryAI st p e,
        In p (Memory.batch memoryAI st) -> outcome p = inr e ->
        let st' := Memory.handleAnalyze memoryAI st in
        error_block (Memory.render st')
        = Some "Failed to analyze memory and learning. Please try again."
        /\ result_block (Memory.render st')
           = result_block (Memory.render st)
        /\ Memory.result st' = Memory.result st
        /\ Memory.loading st' = false).
Proof.
  split; [|split].
  - intros emailAI st p e Hin Hp st'. subst st'.
    destruct (email_analysis_rejected _ _ _ _ Hin Hp) as [e' H].
    rewrite (email_handleAnalyze_failed _ _ _ H). repeat split.
  - intros lifeBalanceAI st p e Hin Hp st'. subst st'.
    destruct (life_balance_analysis_rejected _ _ _ _ Hin Hp) as [e' H].
    rewrite (life_balance_handleAnalyze_failed _ _ _ H). repeat split.
  - intros memoryAI st p e Hin Hp st'. subst st'.
    destruct (memory_analysis_rejected _ _ _ _ Hin Hp) as [e' H].
    rewrite (memory_handleAnalyze_failed _ _ _ H). repeat split.
Qed.

(** C10.  A failed action leaves the stored result untouched: only the
    error (and the loading flag) is set, so a result shown by an earlier
    successful analysis stays on the page next to the new failure
    message. *)
Theorem failed_action_keeps_earlier_result :
  (forall emailAI st err,
     EmailAnalysis.analysis emailAI st = inr err ->
     let st' := EmailAnalysis.handleAnalyze emailAI st in
     EmailAnalysis.result st' = EmailAnalysis.result st
     /\ EmailAnalysis.email st' = EmailAnalysis.email st
     /\ EmailAnalysis.error st' = Some EmailAnalysis.failure_message
     /\ forall r,
          EmailAnalysis.result st = Some r ->
          result_block (EmailAnalysis.render st') = Some r
          /\ error_block (EmailAnalysis.render st')
             = Some EmailAnalysis.failure_message)
  /\ (forall lifeBalanceAI st err,
        LifeBalance.analysis lifeBalanceAI st = inr err ->
        let st' := LifeBalance.handleAnalyze lifeBalanceAI st in
        LifeBalance.result st' = LifeBalance.result st
        /\ LifeBalance.data st' = LifeBalance.data st
        /\ LifeBalance.error st' = Some LifeBalance.failure_message
        /\ forall r,
             LifeBalance.result st = Some r ->
             result_block (LifeBalance.render st') = Some r
             /\ error_block (LifeBalance.render st')
                = Some LifeBalance.failure_message)
  /\ (forall memoryAI st err,
        Memory.analysis memoryAI st = inr err ->
        let st' := Memory.handleAnalyze memoryAI st in
        Memory.result st' = Memory.result st
        /\ Memory.session st' = Memory.session st
        /\ Memory.error st' = Some Memory.failure_message
        /\ forall r,
             Memory.result st = Some r ->
             result_block (Memory.render st') = Some r
             /\ error_block (Memory.render st')
                = Some Memory.failure_message).
Proof.
  split; [|split].
  - intros emailAI st err H st'. subst st'.
    rewrite (email_handleAnalyze_failed _ _ _ H).
    repeat split. cbn. assumption.
  - intros lifeBalanceAI st err H st'. subst st'.
    rewrite (life_balance_handleAnalyze_failed _ _ _ H).
    repeat split. cbn. assumption.
  - intros memoryAI st err H st'. subst st'.
    rewrite (memory_handleAnalyze_failed _ _ _ H).
    repeat split. cbn. assumption.
Qed.

(** The page tests, replayed on the model. *)
Example email_analysis_succeeds :
  result_block (EmailAnalysis.render
                  (EmailAnalysis.handleAnalyze emailAI_ok email_typed))
  = Some (EmailAnalysis.mkAnalysisResult
            (JStr "Email summary") (JStr "positive") (JStr "high")
            (JArr [JStr "Action 1"; JStr "Action 2"])
            (JArr [JStr "Reply 1"; JStr "Reply 2"]))
  /\ error_block (EmailAnalysis.render
                    (EmailAnalysis.handleAnalyze emailAI_ok email_typed))
     = None.
Proof. split; reflexivity. Qed.

Lemma rejected_batch_shows_one_message_and_no_partial_result_witness :
  let st' := EmailAnalysis.handleAnalyze emailAI_failing email_typed in
  error_block (EmailAnalysis.render st')
  = Some "Failed to analyze email. Please try again."
  /\ result_block (EmailAnalysis.render st') = None
  /\ EmailAnalysis.result st' = None
  /\ EmailAnalysis.loading st' = false.
Proof.
  apply (proj1 rejected_batch_shows_one_message_and_no_partial_result
           emailAI_failing email_typed
           (EmailAnalysis.summarize emailAI_failing "Test Content"
                                    "Test Subject")
           api_error).
  - left. reflexivity.
  - reflexivity.
Defined.

Lemma failed_action_keeps_earlier_result_witness :
  let earlier :=
    LifeBalance.handleAnalyze lifeBalanceAI_ok life_balance_typed in
  let st' := LifeBalance.handleAnalyze lifeBalanceAI_failing earlier in
  LifeBalance.result earlier
  = Some (LifeBalance.mkAnalysisResult
            (JNum "7.5") (JArr [JStr "Good work-life balance"])
            (JArr [JStr "Take more breaks"])
            (JStr "Optimized schedule here"))
  /\ LifeBalance.result st' = LifeBalance.result earlier
  /\ error_block (LifeBalance.render st')
     = Some "Failed to analyze life balance. Please try again."
  /\ result_block (LifeBalance.render st') = LifeBalance.result earlier.
Proof.
  intros earlier st'.
  destruct (proj1 (proj2 failed_action_keeps_earlier_result)
              lifeBalanceAI_failing earlier api_error eq_refl)
    as (Hresult & _ & _ & Hshown).
  split; [reflexivity|]. split; [exact Hresult|].
  destruct (Hshown _ eq_refl) as [Hblock Herror].
  split; [exact Herror | exact Hblock].
Defined.

(** ** More facts about the client *)

Section ClientFrame.

Variable backend : Backend.

(** A request whose answer is not a 401 is dispatched exactly once: no
    refresh request follows, the token store and the location are left as
    they were, a 2xx response is handed back as it is and any other answer
    is a rejection. *)
Theorem answer_other_than_401_is_final w config :
  (forall r, backend (network w) (to_request (request_interceptor w config))
             = Some r -> status r <> 401) ->
  let first := to_request (request_interceptor w config) in
  let w' := (api backend w config).1 in
  localStorage w' = localStorage w
  /\ location_href w' = location_href w
  /\ network w' = network w ++ [first]
  /\ (api backend w config).2
     = match backend (network w) first with
       | Some r =>
           if validateStatus (status r) then inl r
           else inr (AxiosError (request_interceptor w config) (Some r))
       | None => inr TypeError
       end.
Proof.
  intros Hother first w'. subst first w'.
  rewrite api_once by (right; exact Hother). cbn.
  repeat split. destruct (backend _ _); reflexivity.
Qed.

(** The three fates of the browser state across a call of [api]: nothing
    changed; a new access token was stored; or the session was dropped. *)
Lemma api_fate w config :
  let w' := (api backend w config).1 in
  (localStorage w' = localStorage w /\ location_href w' = location_href w)
  \/ (exists token,
        localStorage w' = <["access_token" := token]> (localStorage w)
        /\ location_href w' = location_href w)
  \/ (localStorage w'
      = delete "refresh_token" (delete "access_token" (localStorage w))
      /\ location_href w' = "/login"
      /\ exists e, (api backend w config).2 = inr e).
Proof.
  cbv zeta.
  destruct (_retry config) eqn:Hretry.
  { rewrite api_once by (left; exact Hretry). left. split; reflexivity. }
  destruct (backend (network w) (to_request (request_interceptor w config)))
    as [r|] eqn:Hb.
  2:{ rewrite api_once by (right; intros r; rewrite Hb; discriminate).
      left. split; reflexivity. }
  destruct (Z.eq_dec (status r) 401) as [H401|Hother].
  2:{ rewrite api_once by (right; intros r'; rewrite Hb; congruence).
      left. split; reflexivity. }
  rewrite (api_first_401 backend w config r Hretry Hb H401). cbv zeta.
  destruct (settle _ _) as [response|err].
  2:{ right; right. cbn. eauto. }
  destruct (get_prop _ _) as [access_token|err].
  2:{ right; right. cbn. eauto. }
  rewrite api_once by (left; reflexivity).
  right; left. eexists. split; reflexivity.
Qed.

(** Whatever the backend answers, a call of [api] leaves every key of
    [localStorage] other than the two token keys as it was, and it never
    writes the refresh token: after the call the refresh token is the one
    stored before, or it is gone. *)
Theorem api_touches_only_the_token_keys w config :
  (forall k, k <> "access_token" -> k <> "refresh_token" ->
             getItem (api backend w config).1 k = getItem w k)
  /\ (getItem (api backend w config).1 "refresh_token"
      = getItem w "refresh_token"
      \/ getItem (api backend w config).1 "refresh_token" = None).
Proof.
  unfold getItem.
  destruct (api_fate w config) as [[-> _] | [(token & -> & _) | (-> & _)]].
  - auto.
  - split.
    + intros k Ha _. apply lookup_insert_ne. congruence.
    + left. apply lookup_insert_ne. discriminate.
  - split.
    + intros k Ha Hr. rewrite !lookup_delete_ne by congruence. reflexivity.
    + right. apply lookup_delete_eq.
Qed.

(** The location is changed by [api] only to the login entry point, and
    only together with the removal of both tokens and a rejection of the
    call. *)
Theorem redirect_only_with_dropped_session w config :
  let w' := (api backend w config).1 in
  location_href w' = location_href w
  \/ (location_href w' = "/login"
      /\ getItem w' "access_token" = None
      /\ getItem w' "refresh_token" = None
      /\ exists e, (api backend w config).2 = inr e).
Proof.
  cbv zeta. unfold getItem.
  destruct (api_fate w config)
    as [[_ H] | [(token & _ & H) | (Hs & H & He)]]; auto.
  right. rewrite Hs. repeat split; auto.
  - rewrite lookup_delete_ne by discriminate. apply lookup_delete_eq.
  - apply lookup_delete_eq.
Qed.

(** A first 401 whose refresh call is fulfilled with a body that has an
    [access_token] property, of whatever value. *)
Lemma api_refresh_fulfilled w config r response v :
  _retry config = false ->
  backend (network w) (to_request (request_interceptor w config)) = Some r ->
  status r = 401 ->
  backend (network w ++ [to_request (request_interceptor w config)])
          (refresh_request (getItem w "refresh_token")) = Some response ->
  validateStatus (status response) = true ->
  get_prop (data response) "access_token" = inl v ->
  api backend w config
  = (record_request
       (setItem
          (record_request
             (record_request w (to_request (request_interceptor w config)))
             (refresh_request (getItem w "refresh_token")))
          "access_token" (ToString v))
       (to_request (retried (request_interceptor w config) (ToString v))),
     not_retried (retried (request_interceptor w config) (ToString v))
       (backend
          ((network w ++ [to_request (request_interceptor w config)])
             ++ [refresh_request (getItem w "refresh_token")])
          (to_request
             (retried (request_interceptor w config) (ToString v))))).
Proof.
  intros Hretry Hb H401 Hrefresh Hok Htoken.
  rewrite (api_first_401 backend w config r Hretry Hb H401). cbv zeta.
  cbn [network record_request].
  rewrite Hrefresh. unfold settle. rewrite Hok, Htoken.
  rewrite api_once by (left; reflexivity).
  rewrite request_interceptor_retried. reflexivity.
Qed.

(** When the refresh call is fulfilled with a body that has no
    [access_token] property, the interceptor does not notice: it stores the
    text [undefined] as the access token and dispatches the original request
    again with [Authorization: Bearer undefined]. *)
Theorem refresh_without_token_field_stores_undefined w config r response :
  _retry config = false ->
  backend (network w) (to_request (request_interceptor w config)) = Some r ->
  status r = 401 ->
  backend (network w ++ [to_request (request_interceptor w config)])
          (refresh_request (getItem w "refresh_token")) = Some response ->
  validateStatus (status response) = true ->
  get_prop (data response) "access_token" = inl JUndefined ->
  let w' := (api backend w config).1 in
  getItem w' "access_token" = Some "undefined"
  /\ exists again,
       network w'
       = network w ++ [to_request (request_interceptor w config);
                       refresh_request (getItem w "refresh_token"); again]
       /\ dispatch_of config again
       /\ req_headers again !! "Authorization" = Some "Bearer undefined".
Proof.
  intros Hretry Hb H401 Hrefresh Hok Htoken w'. subst w'.
  rewrite (api_refresh_fulfilled w config r response JUndefined
             Hretry Hb H401 Hrefresh Hok Htoken).
  unfold getItem. cbn. split; [apply lookup_insert_eq|].
  eexists. rewrite <- !app_assoc. cbn. split; [reflexivity|].
  pose proof (request_interceptor_dispatch w config) as Hd.
  split; [exact Hd | apply lookup_insert_eq].
Qed.

(** When the refresh call is fulfilled with a null (or missing) body, the
    interceptor treats it as a failed refresh: no further dispatch, both
    tokens removed, the location set to the login entry point, and the
    caller gets a type error. *)
Theorem refresh_with_null_body_drops_session w config r response :
  _retry config = false ->
  backend (network w) (to_request (request_interceptor w config)) = Some r ->
  status r = 401 ->
  backend (network w ++ [to_request (request_interceptor w config)])
          (refresh_request (getItem w "refresh_token")) = Some response ->
  validateStatus (status response) = true ->
  data response = JNull \/ data response = JUndefined ->
  let w' := (api backend w config).1 in
  getItem w' "access_token" = None
  /\ getItem w' "refresh_token" = None
  /\ location_href w' = "/login"
  /\ network w' = network w ++ [to_request (request_interceptor w config);
                               refresh_request (getItem w "refresh_token")]
  /\ (api backend w config).2 = inr TypeError.
Proof.
  intros Hretry Hb H401 Hrefresh Hok Hnull w'. subst w'.
  rewrite (api_first_401 backend w config r Hretry Hb H401). cbv zeta.
  cbn [network record_request].
  rewrite Hrefresh. unfold settle. rewrite Hok.
  assert (Hthrow : get_prop (data response) "access_token" = inr TypeError)
    by (destruct Hnull as [-> | ->]; reflexivity).
  rewrite Hthrow. unfold getItem. cbn. rewrite <- app_assoc.
  repeat split.
  - rewrite lookup_delete_ne by discriminate. apply lookup_delete_eq.
  - apply lookup_delete_eq.
Qed.

(** The request interceptor changes nothing of a configuration but its
    [Authorization] header, and applying it twice is applying it once. *)
Theorem request_interceptor_changes_only_authorization w config :
  let config' := request_interceptor w config in
  method config' = method config
  /\ url config' = url config
  /\ baseURL config' = baseURL config
  /\ payload config' = payload config
  /\ _retry config' = _retry config
  /\ (forall k, k <> "Authorization" ->
                headers config' !! k = headers config !! k)
  /\ request_interceptor w config' = config'.
Proof.
  cbv zeta. unfold request_interceptor.
  destruct (getItem w "access_token") as [[|a s]|]; cbn [truthy];
    try (repeat split; fail).
  cbn [default id]. repeat split.
  - intros k Hk. apply lookup_insert_ne. congruence.
  - unfold set_header. cbn. f_equal. apply insert_insert_eq.
Qed.


End ClientFrame.

(** ** Facts about the session context *)


Section SessionFacts.

Variable backend : Backend.
Variable REACT_APP_API_URL : option string.

(** Against a backend that never answers 401, one call of [api] is one
    request and nothing else. *)
Lemma api_quiet w config :
  never_401 backend ->
  api backend w config
  = (record_request w (to_request (request_interceptor w config)),
     not_retried (request_interceptor w config)
       (backend (network w) (to_request (request_interceptor w config)))).
Proof.
  intros Hnever. apply api_once. right. intros r Hr. exact (Hnever _ _ _ Hr).
Qed.

(** No operation of the session context stores a token: as long as the
    backend answers no 401 (which sets off the interceptor's refresh),
    [login], [register], [checkAuth], [requestPasswordReset] and
    [resetPassword] leave [localStorage] exactly as it was, whatever the
    responses carry. *)
Theorem session_operations_never_store_tokens :
  never_401 backend ->
  forall w st,
    (forall username password,
       localStorage
         (AuthContext.login backend REACT_APP_API_URL w st username password).1.1
       = localStorage w)
    /\ (forall email username password,
          localStorage
            (AuthContext.register backend REACT_APP_API_URL w st
               email username password).1.1
          = localStorage w)
    /\ localStorage (AuthContext.checkAuth backend REACT_APP_API_URL w st).1
       = localStorage w
    /\ (forall email,
          localStorage
            (AuthContext.requestPasswordReset backend REACT_APP_API_URL w st
               email).1.1
          = localStorage w)
    /\ (forall token newPassword,
          localStorage
            (AuthContext.resetPassword backend REACT_APP_API_URL w st
               token newPassword).1.1
          = localStorage w).
Proof.
  intros Hnever w st.
  assert (Hlogin : forall w st username password,
    localStorage
      (AuthContext.login backend REACT_APP_API_URL w st username password).1.1
    = localStorage w).
  { clear w st. intros w st username password.
    unfold AuthContext.login, AuthContext.auth_login, auth.getCurrentUser,
      api_post, api_get, response_data.
    rewrite (api_quiet w _ Hnever).
    destruct (not_retried _ _) as [r1|e1]; [|reflexivity].
    rewrite (api_quiet _ _ Hnever).
    destruct (not_retried _ _) as [r2|e2]; reflexivity. }
  split; [apply Hlogin|]. split; [|split; [|split]].
  - intros email username password.
    unfold AuthContext.register, AuthContext.auth_register, api_post,
      response_data.
    rewrite (api_quiet w _ Hnever).
    destruct (not_retried _ _) as [r1|e1]; [|reflexivity].
    match goal with
    | |- context [AuthContext.login ?b ?u ?w1 ?s1 ?n ?p] =>
        pose proof (Hlogin w1 s1 n p) as H;
        destruct (AuthContext.login b u w1 s1 n p) as [[w2 st2] [v|e]]
    end; exact H.
  - unfold AuthContext.checkAuth, auth.getCurrentUser, api_get, response_data.
    destruct (truthy _); [|reflexivity].
    rewrite (api_quiet w _ Hnever).
    destruct (not_retried _ _); reflexivity.
  - intros email.
    unfold AuthContext.requestPasswordReset, auth.requestPasswordReset,
      api_post, response_void.
    rewrite (api_quiet w _ Hnever).
    destruct (not_retried _ _); reflexivity.
  - intros token newPassword.
    unfold AuthContext.resetPassword, auth.resetPassword, api_post,
      response_void.
    rewrite (api_quiet w _ Hnever).
    destruct (not_retried _ _); reflexivity.
Qed.

(** A successful login does not use the tokens it is given: the profile
    request that follows carries the [Authorization] header of the token
    stored before the login, or none; the store is unchanged; and the root
    route leads where it led before, although the context has navigated to
    the dashboard. *)
Theorem login_does_not_use_the_returned_tokens
    w st username password tokens profile_response :
  let login_request :=
    to_request
      (request_interceptor w
         (api_defaults REACT_APP_API_URL "post" "/api/auth/login"
            (JObj [("username", JStr username);
                   ("password", JStr password)]))) in
  let profile_request :=
    to_request
      (request_interceptor w
         (api_defaults REACT_APP_API_URL "get" "/api/auth/me" JUndefined)) in
  backend (network w) login_request = Some tokens ->
  validateStatus (status tokens) = true ->
  backend (network w ++ [login_request]) profile_request
    = Some profile_response ->
  validateStatus (status profile_response) = true ->
  let out := AuthContext.login backend REACT_APP_API_URL w st
               username password in
  out.2 = inl JUndefined
  /\ localStorage out.1.1 = localStorage w
  /\ network out.1.1 = network w ++ [login_request; profile_request]
  /\ req_headers profile_request !! "Authorization"
     = match getItem w "access_token" with
       | Some (String a s) => Some ("Bearer " +:+ String a s)
       | _ => None
       end
  /\ AuthContext.user out.1.2 = data profile_response
  /\ AuthContext.navigated out.1.2
     = AuthContext.navigated st ++ ["/dashboard"]
  /\ App.root_redirect out.1.1 = App.root_redirect w.
Proof.
  intros login_request profile_request Hlogin Hok1 Hme Hok2 out.
  assert (Hout :
    out = (record_request (record_request w login_request) profile_request,
           AuthContext.navigate
             (AuthContext.setUser (AuthContext.setError st None)
                                  (data profile_response))
             "/dashboard",
           inl JUndefined)).
  { subst out login_request profile_request.
    unfold AuthContext.login, AuthContext.auth_login, auth.getCurrentUser,
      api_post, api_get, response_data.
    rewrite api_once
      by (right; intros r; rewrite Hlogin; intros [= <-] E;
          rewrite E in Hok1; discriminate).
    rewrite Hlogin. unfold not_retried at 1, settle at 1. rewrite Hok1.
    assert (Hsame : forall rq c,
              request_interceptor (record_request w rq) c
              = request_interceptor w c) by reflexivity.
    rewrite api_once
      by (right; intros r; rewrite Hsame; cbn [network record_request];
          rewrite Hme; intros [= <-] E; rewrite E in Hok2; discriminate).
    rewrite !Hsame. cbn [network record_request]. rewrite Hme.
    unfold not_retried, settle. rewrite Hok2. reflexivity. }
  rewrite Hout. clear Hout out. cbn. rewrite <- app_assoc.
  repeat split.
  pose proof (request_interceptor_authorization w
                (api_defaults REACT_APP_API_URL "get" "/api/auth/me"
                              JUndefined)) as Ha.
  subst profile_request.
  change (req_headers (to_request ?c)) with (headers c).
  rewrite Ha. cbn.
  destruct (getItem w "access_token") as [[|a s]|]; reflexivity.
Qed.





End SessionFacts.

(** ** Facts about the other facades *)

Section FacadeFacts.

Variable backend : Backend.
Variable REACT_APP_API_URL : option string.

Lemma facade_post_once w path body :
  never_401 backend ->
  single_post backend REACT_APP_API_URL w path body
    (response_data (api_post backend REACT_APP_API_URL w path body)).
Proof.
  intros Hnever. unfold single_post, api_post. cbv zeta.
  rewrite (api_quiet backend w _ Hnever).
  destruct (backend _ _) as [r|]; cbn; [|auto].
  unfold settle. destruct (validateStatus (status r)); auto.
Qed.

(** The email and life-balance facades add nothing to the client: against
    a backend that answers no 401, each call is one POST to its own path
    with the arguments as body (an omitted subject is [undefined]); the
    body of a 2xx response is returned as it is, whatever its shape, and
    any other answer is the client's rejection. *)
Theorem ai_facades_post_once_and_return_the_body :
  never_401 backend ->
  forall w,
    (forall content subject,
       single_post backend REACT_APP_API_URL w "/api/email/summarize"
         (JObj [("content", JStr content); ("subject", of_optional subject)])
         (emailAI.summarize backend REACT_APP_API_URL w content subject)
       /\ single_post backend REACT_APP_API_URL w "/api/email/sentiment"
            (JObj [("content", JStr content);
                   ("subject", of_optional subject)])
            (emailAI.analyzeSentiment backend REACT_APP_API_URL w
               content subject)
       /\ single_post backend REACT_APP_API_URL w "/api/email/priority"
            (JObj [("content", JStr content);
                   ("subject", of_optional subject)])
            (emailAI.classifyPriority backend REACT_APP_API_URL w
               content subject)
       /\ single_post backend REACT_APP_API_URL w "/api/email/actions"
            (JObj [("content", JStr content);
                   ("subject", of_optional subject)])
            (emailAI.extractActions backend REACT_APP_API_URL w
               content subject)
       /\ single_post backend REACT_APP_API_URL w "/api/email/replies"
            (JObj [("content", JStr content);
                   ("subject", of_optional subject)])
            (emailAI.generateReplies backend REACT_APP_API_URL w
               content subject))
    /\ (forall activities schedule,
          single_post backend REACT_APP_API_URL w "/api/life-balance/scores"
            (JObj [("activities", JArr (map JStr activities))])
            (lifeBalanceAI.calculateScores backend REACT_APP_API_URL w
               activities)
          /\ single_post backend REACT_APP_API_URL w
               "/api/life-balance/insights"
               (JObj [("activities", JArr (map JStr activities))])
               (lifeBalanceAI.generateInsights backend REACT_APP_API_URL w
                  activities)
          /\ single_post backend REACT_APP_API_URL w
               "/api/life-balance/recommendations"
               (JObj [("activities", JArr (map JStr activities))])
               (lifeBalanceAI.getRecommendations backend REACT_APP_API_URL w
                  activities)
          /\ single_post backend REACT_APP_API_URL w
               "/api/life-balance/optimize"
               (JObj [("activities", JArr (map JStr activities));
                      ("schedule", JStr schedule)])
               (lifeBalanceAI.optimizeSchedule backend REACT_APP_API_URL w
                  activities schedule)).
Proof.
  intros Hnever w. split.
  - intros content subject.
    repeat split; apply (facade_post_once w _ _ Hnever).
  - intros activities schedule.
    repeat split; apply (facade_post_once w _ _ Hnever).
Qed.

End FacadeFacts.

(** ** More facts about the pages *)

Lemma first_rejection_none ps :
  first_rejection ps = None <->
  Forall (fun p => exists v, outcome p = inl v) ps.
Proof.
  induction ps as [|p ps IH]; cbn.
  - split; [constructor | reflexivity].
  - destruct (outcome p) as [v|e] eqn:Hp.
    + rewrite IH. split.
      * intros H. constructor; eauto.
      * intros H. inversion H; assumption.
    + split.
      * destruct (first_rejection ps) as [[t e']|];
          [destruct (settled_at p <=? t)%nat|]; discriminate.
      * intros H. inversion H as [|? ? [v Hv] _]. congruence.
Qed.

Lemma first_rejection_earliest ps t e :
  first_rejection ps = Some (t, e) ->
  exists p,
    In p ps /\ outcome p = inr e /\ settled_at p = t
    /\ forall q e', In q ps -> outcome q = inr e' -> (t <= settled_at q)%nat.
Proof.
  revert t e. induction ps as [|p ps IH]; cbn; [discriminate|].
  intros t e. destruct (outcome p) as [v|e0] eqn:Hp.
  - intros H. destruct (IH _ _ H) as (p' & Hin & Ho & Ht & Hmin).
    exists p'. repeat split; auto.
    intros q e' [<- | Hq] Hqe; [congruence | eauto].
  - destruct (first_rejection ps) as [[t' e'']|] eqn:Hrest.
    + destruct (IH _ _ eq_refl) as (p' & Hin & Ho & Ht & Hmin).
      destruct (Nat.leb_spec (settled_at p) t') as [Hle|Hlt];
        intros [= <- <-].
      * exists p. repeat split; auto.
        intros q e' [<- | Hq] Hqe; [lia|].
        specialize (Hmin q e' Hq Hqe). lia.
      * exists p'. repeat split; auto.
        intros q e' [<- | Hq] Hqe; [lia | eauto].
    + intros [= <- <-]. exists p. repeat split; auto.
      intros q e' [<- | Hq] Hqe; [lia|].
      apply first_rejection_none in Hrest.
      rewrite Forall_forall in Hrest.
      destruct (Hrest q) as [v Hv].
      { apply list_elem_of_In. exact Hq. }
      congruence.
Qed.

(** [Promise.all] is fulfilled exactly when every promise is, with the
    values in the order of the array. *)
Lemma promise_all_fulfilled ps vs :
  promise_all ps = inl vs <->
  Forall (fun p => exists v, outcome p = inl v) ps
  /\ vs = map fulfilled_value ps.
Proof.
  unfold promise_all. rewrite <- first_rejection_none.
  destruct (first_rejection ps) as [[t e]|]; split.
  - discriminate.
  - intros [H _]. discriminate.
  - intros [= <-]. auto.
  - intros [_ ->]. reflexivity.
Qed.

(** [Promise.all] is rejected with the reason of the promise that was
    rejected first. *)
Lemma promise_all_rejected_earliest ps e :
  promise_all ps = inr e -> earliest_rejection ps e.
Proof.
  unfold promise_all.
  destruct (first_rejection ps) as [[t e']|] eqn:H; [|discriminate].
  intros [= <-].
  destruct (first_rejection_earliest ps t e' H) as (p & Hin & Ho & <- & Hmin).
  exists p. auto.
Qed.

Lemma get_prop_usable v k :
  v <> JNull -> v <> JUndefined -> exists x, get_prop v k = inl x.
Proof. destruct v; cbn; eauto; congruence. Qed.

Lemma usable_of_get_prop p k x :
  (exists v, outcome p = inl v) ->
  get_prop (fulfilled_value p) k = inl x ->
  usable p.
Proof.
  intros [v Hv]. unfold fulfilled_value. rewrite Hv.
  intros H. exists v. split; [exact Hv|].
  split; intros ->; discriminate.
Qed.

Lemma usable_fulfilled p :
  usable p -> exists v, outcome p = inl v.
Proof. intros (v & Hv & _). eauto. Qed.

Lemma usable_get_prop p k :
  usable p -> exists x, get_prop (fulfilled_value p) k = inl x.
Proof.
  intros (v & Hv & Hn & Hu). unfold fulfilled_value. rewrite Hv.
  apply get_prop_usable; assumption.
Qed.

(** Reading the awaited values of a batch, one property after the other. *)
Ltac read_usable :=
  repeat match goal with
    | H : usable ?p |- context [get_prop (fulfilled_value ?p) ?k] =>
        let x := fresh "x" in
        destruct (usable_get_prop p k H) as [x ->]; cbn [and_then]
    end.

Ltac all_usable Hall :=
  repeat match goal with
    | |- context [match get_prop (fulfilled_value ?p) ?k with _ => _ end] =>
        let x := fresh "x" in
        let H := fresh "Hread" in
        destruct (get_prop (fulfilled_value p) k) as [x|] eqn:H;
        cbn [and_then]; [|discriminate]
    | |- context [and_then (get_prop (fulfilled_value ?p) ?k) _] =>
        let x := fresh "x" in
        let H := fresh "Hread" in
        destruct (get_prop (fulfilled_value p) k) as [x|] eqn:H;
        cbn [and_then]; [|discriminate]
    end;
  intros _;
  unfold EmailAnalysis.batch, LifeBalance.batch, Memory.batch in *;
  repeat match goal with
    | |- Forall _ [] => constructor
    | |- Forall _ (_ :: _) =>
        constructor;
        [ eapply usable_of_get_prop;
          [ eapply (proj1 (Forall_forall _ _) Hall);
            apply list_elem_of_In; cbn; tauto
          | eassumption ]
        | ]
    end.

Lemma email_analysis_succeeds_iff emailAI st :
  (exists r, EmailAnalysis.analysis emailAI st = inl r) <->
  Forall usable (EmailAnalysis.batch emailAI st).
Proof.
  unfold EmailAnalysis.analysis. split.
  - intros [r H]. revert H.
    destruct (promise_all _) as [vs|e] eqn:Hall; [|discriminate].
    apply promise_all_fulfilled in Hall as [Hall ->].
    cbn [and_then EmailAnalysis.batch map at_index nth].
    all_usable Hall.
  - intros H.
    assert (Hall : promise_all (EmailAnalysis.batch emailAI st)
                   = inl (map fulfilled_value (EmailAnalysis.batch emailAI st))).
    { apply promise_all_fulfilled. split; [|reflexivity].
      eapply Forall_impl; [exact H|]. exact usable_fulfilled. }
    rewrite Hall. unfold EmailAnalysis.batch in *.
    cbn [and_then map at_index nth].
    repeat match goal with
      | H : Forall usable (_ :: _) |- _ =>
          let H1 := fresh "Hu" in
          apply Forall_cons_iff in H as [H1 H]
      end.
    read_usable. eauto.
Qed.

Lemma life_balance_analysis_succeeds_iff lifeBalanceAI st :
  (exists r, LifeBalance.analysis lifeBalanceAI st = inl r) <->
  Forall usable (LifeBalance.batch lifeBalanceAI st).
Proof.
  unfold LifeBalance.analysis. split.
  - intros [r H]. revert H.
    destruct (promise_all _) as [vs|e] eqn:Hall; [|discriminate].
    apply promise_all_fulfilled in Hall as [Hall ->].
    cbn [and_then LifeBalance.batch map at_index nth].
    all_usable Hall.
  - intros H.
    assert (Hall : promise_all (LifeBalance.batch lifeBalanceAI st)
                   = inl (map fulfilled_value
                              (LifeBalance.batch lifeBalanceAI st))).
    { apply promise_all_fulfilled. split; [|reflexivity].
      eapply Forall_impl; [exact H|]. exact usable_fulfilled. }
    rewrite Hall. unfold LifeBalance.batch in *.
    cbn [and_then map at_index nth].
    repeat match goal with
      | H : Forall usable (_ :: _) |- _ =>
          let H1 := fresh "Hu" in
          apply Forall_cons_iff in H as [H1 H]
      end.
    read_usable. eauto.
Qed.

Lemma memory_analysis_succeeds_iff memoryAI st :
  (exists r, Memory.analysis memoryAI st = inl r) <->
  Forall usable (Memory.batch memoryAI st).
Proof.
  unfold Memory.analysis. split.
  - intros [r H]. revert H.
    destruct (promise_all _) as [vs|e] eqn:Hall; [|discriminate].
    apply promise_all_fulfilled in Hall as [Hall ->].
    cbn [and_then Memory.batch map at_index nth].
    all_usable Hall.
  - intros H.
    assert (Hall : promise_all (Memory.batch memoryAI st)
                   = inl (map fulfilled_value (Memory.batch memoryAI st))).
    { apply promise_all_fulfilled. split; [|reflexivity].
      eapply Forall_impl; [exact H|]. exact usable_fulfilled. }
    rewrite Hall. unfold Memory.batch in *.
    cbn [and_then map at_index nth].
    repeat match goal with
      | H : Forall usable (_ :: _) |- _ =>
          let H1 := fresh "Hu" in
          apply Forall_cons_iff in H as [H1 H]
      end.
    read_usable. eauto.
Qed.

(** An action ends without a failure message exactly when every call of
    its batch was fulfilled with a body that is neither null nor undefined:
    besides a rejected call, a call fulfilled with an empty body makes the
    whole action fail too. *)
Theorem action_succeeds_iff_every_body_is_usable :
  (forall emailAI st,
     EmailAnalysis.error (EmailAnalysis.handleAnalyze emailAI st) = None
     <-> Forall usable (EmailAnalysis.batch emailAI st))
  /\ (forall lifeBalanceAI st,
        LifeBalance.error (LifeBalance.handleAnalyze lifeBalanceAI st) = None
        <-> Forall usable (LifeBalance.batch lifeBalanceAI st))
  /\ (forall memoryAI st,
        Memory.error (Memory.handleAnalyze memoryAI st) = None
        <-> Forall usable (Memory.batch memoryAI st)).
Proof.
  split; [|split].
  - intros emailAI st. rewrite <- email_analysis_succeeds_iff.
    unfold EmailAnalysis.handleAnalyze.
    destruct (EmailAnalysis.analysis emailAI st) as [r|e]; cbn; split;
      eauto; try discriminate.
    intros [r H]. discriminate.
  - intros lifeBalanceAI st. rewrite <- life_balance_analysis_succeeds_iff.
    unfold LifeBalance.handleAnalyze.
    destruct (LifeBalance.analysis lifeBalanceAI st) as [r|e]; cbn; split;
      eauto; try discriminate.
    intros [r H]. discriminate.
  - intros memoryAI st. rewrite <- memory_analysis_succeeds_iff.
    unfold Memory.handleAnalyze.
    destruct (Memory.analysis memoryAI st) as [r|e]; cbn; split;
      eauto; try discriminate.
    intros [r H]. discriminate.
Qed.

(** When every call of a batch is fulfilled with an object, the result is
    made of one named property of each body, a missing property being
    [undefined], and an earlier failure message is cleared.  The score shown
    by the life-balance page is the [overall_score] of the scores call, and
    the metrics, concepts, questions and gaps of the memory page are the
    [metrics], [concepts], [questions] and [gaps] of their calls. *)
Theorem fulfilled_batch_fills_the_result :
  (forall emailAI st f1 f2 f3 f4 f5,
     map outcome (EmailAnalysis.batch emailAI st)
     = [inl (JObj f1); inl (JObj f2); inl (JObj f3); inl (JObj f4);
        inl (JObj f5)] ->
     let st' := EmailAnalysis.handleAnalyze emailAI st in
     EmailAnalysis.result st'
     = Some (EmailAnalysis.mkAnalysisResult
               (lookup_field "summary" f1) (lookup_field "sentiment" f2)
               (lookup_field "priority" f3) (lookup_field "action_items" f4)
               (lookup_field "reply_suggestions" f5))
     /\ EmailAnalysis.error st' = None
     /\ EmailAnalysis.loading st' = false)
  /\ (forall lifeBalanceAI st f1 f2 f3 f4,
        map outcome (LifeBalance.batch lifeBalanceAI st)
        = [inl (JObj f1); inl (JObj f2); inl (JObj f3); inl (JObj f4)] ->
        let st' := LifeBalance.handleAnalyze lifeBalanceAI st in
        LifeBalance.result st'
        = Some (LifeBalance.mkAnalysisResult
                  (lookup_field "overall_score" f1)
                  (lookup_field "insights" f2)
                  (lookup_field "recommendations" f3)
                  (lookup_field "optimized_schedule" f4))
        /\ LifeBalance.error st' = None
        /\ LifeBalance.loading st' = false)
  /\ (forall memoryAI st f1 f2 f3 f4 f5 f6,
        map outcome (Memory.batch memoryAI st)
        = [inl (JObj f1); inl (JObj f2); inl (JObj f3); inl (JObj f4);
           inl (JObj f5); inl (JObj f6)] ->
        let st' := Memory.handleAnalyze memoryAI st in
        Memory.result st'
        = Some (Memory.mkAnalysisResult
                  (lookup_field "learning_style" f1)
                  (lookup_field "metrics" f2)
                  (lookup_field "recommendations" f3)
                  (lookup_field "concepts" f4)
                  (lookup_field "questions" f5)
                  (lookup_field "gaps" f6))
        /\ Memory.error st' = None
        /\ Memory.loading st' = false).
Proof.
  split; [|split].
  - intros emailAI st f1 f2 f3 f4 f5 H st'. subst st'.
    unfold EmailAnalysis.handleAnalyze, EmailAnalysis.analysis, promise_all,
      fulfilled_value.
    unfold EmailAnalysis.batch in *. cbn [map] in H.
    injection H as H1 H2 H3 H4 H5.
    cbn [first_rejection map]. rewrite H1, H2, H3, H4, H5.
    repeat split.
  - intros lifeBalanceAI st f1 f2 f3 f4 H st'. subst st'.
    unfold LifeBalance.handleAnalyze, LifeBalance.analysis, promise_all,
      fulfilled_value.
    unfold LifeBalance.batch in *. cbn [map] in H.
    injection H as H1 H2 H3 H4.
    cbn [first_rejection map]. rewrite H1, H2, H3, H4.
    repeat split.
  - intros memoryAI st f1 f2 f3 f4 f5 f6 H st'. subst st'.
    unfold Memory.handleAnalyze, Memory.analysis, promise_all,
      fulfilled_value.
    unfold Memory.batch in *. cbn [map] in H.
    injection H as H1 H2 H3 H4 H5 H6.
    cbn [first_rejection map]. rewrite H1, H2, H3, H4, H5, H6.
    repeat split.
Qed.

(** When a call of the batch is rejected, the page writes exactly one
    entry to the console, labelled [Analysis failed:], whose error is the
    reason of the call that was rejected first; the other rejections and
    all the fulfilled values are dropped. *)
Theorem rejected_batch_logs_the_first_rejection :
  (forall emailAI st p e0,
     In p (EmailAnalysis.batch emailAI st) -> outcome p = inr e0 ->
     exists e,
       earliest_rejection (EmailAnalysis.batch emailAI st) e
       /\ EmailAnalysis.console_error (EmailAnalysis.handleAnalyze emailAI st)
          = EmailAnalysis.console_error st ++ [("Analysis failed:", e)])
  /\ (forall lifeBalanceAI st p e0,
        In p (LifeBalance.batch lifeBalanceAI st) -> outcome p = inr e0 ->
        exists e,
          earliest_rejection (LifeBalance.batch lifeBalanceAI st) e
          /\ LifeBalance.console_error
               (LifeBalance.handleAnalyze lifeBalanceAI st)
             = LifeBalance.console_error st ++ [("Analysis failed:", e)])
  /\ (forall memoryAI st p e0,
        In p (Memory.batch memoryAI st) -> outcome p = inr e0 ->
        exists e,
          earliest_rejection (Memory.batch memoryAI st) e
          /\ Memory.console_error (Memory.handleAnalyze memoryAI st)
             = Memory.console_error st ++ [("Analysis failed:", e)]).
Proof.
  split; [|split].
  - intros emailAI st p e0 Hin Hp.
    destruct (promise_all_rejected _ p e0 Hin Hp) as [e H].
    exists e. split; [exact (promise_all_rejected_earliest _ _ H)|].
    unfold EmailAnalysis.handleAnalyze, EmailAnalysis.analysis.
    rewrite H. reflexivity.
  - intros lifeBalanceAI st p e0 Hin Hp.
    destruct (promise_all_rejected _ p e0 Hin Hp) as [e H].
    exists e. split; [exact (promise_all_rejected_earliest _ _ H)|].
    unfold LifeBalance.handleAnalyze, LifeBalance.analysis.
    rewrite H. reflexivity.
  - intros memoryAI st p e0 Hin Hp.
    destruct (promise_all_rejected _ p e0 Hin Hp) as [e H].
    exists e. split; [exact (promise_all_rejected_earliest _ _ H)|].
    unfold Memory.handleAnalyze, Memory.analysis.
    rewrite H. reflexivity.
Qed.


(** ** Facts about the input handlers *)

Lemma filter_from_past {A : Type} (l : list A) index from :
  (index < from)%nat ->
  filter_from (fun _ i => negb (i =? index)%nat) from l = l.
Proof.
  revert from. induction l as [|x l IH]; intros from Hlt; cbn; [reflexivity|].
  destruct (Nat.eqb_spec from index) as [E|_]; [lia|]. cbn.
  rewrite IH by lia. reflexivity.
Qed.

(** Filtering out one index is deleting the element at that index. *)
Lemma filter_from_delete {A : Type} (l : list A) index from :
  (from <= index)%nat ->
  filter_from (fun _ i => negb (i =? index)%nat) from l
  = delete (index - from)%nat l.
Proof.
  revert from. induction l as [|x l IH]; intros from Hle; cbn; [reflexivity|].
  destruct (Nat.eqb_spec from index) as [->|Hne]; cbn.
  - rewrite Nat.sub_diag. cbn. apply filter_from_past. lia.
  - rewrite IH by lia.
    replace (index - from)%nat with (S (index - S from)) by lia.
    reflexivity.
Qed.

(** Removing an activity or a goal by its index removes exactly the entry
    at that index and keeps the order of the others; an index past the end
    removes nothing; the other list, the schedule, the result and the
    message are untouched. *)
Theorem remove_deletes_the_entry_at_the_index st index :
  let data := LifeBalance.data st in
  let after_activity :=
    LifeBalanceForm.removeActivity st index in
  let after_goal := LifeBalanceForm.removeGoal st index in
  LifeBalance.activities (LifeBalance.data after_activity)
  = delete index (LifeBalance.activities data)
  /\ length (LifeBalance.activities (LifeBalance.data after_activity))
     = (if (index <? length (LifeBalance.activities data))%nat
        then length (LifeBalance.activities data) - 1
        else length (LifeBalance.activities data))%nat
  /\ LifeBalance.goals (LifeBalance.data after_activity)
     = LifeBalance.goals data
  /\ LifeBalance.goals (LifeBalance.data after_goal)
     = delete index (LifeBalance.goals data)
  /\ LifeBalance.activities (LifeBalance.data after_goal)
     = LifeBalance.activities data
  /\ LifeBalance.schedule (LifeBalance.data after_activity)
     = LifeBalance.schedule data
  /\ LifeBalance.schedule (LifeBalance.data after_goal)
     = LifeBalance.schedule data
  /\ LifeBalance.result after_activity = LifeBalance.result st
  /\ LifeBalance.error after_activity = LifeBalance.error st
  /\ LifeBalance.result after_goal = LifeBalance.result st
  /\ LifeBalance.error after_goal = LifeBalance.error st.
Proof.
  cbv zeta. unfold LifeBalanceForm.removeActivity, LifeBalanceForm.removeGoal,
    LifeBalanceForm.setData. cbn -[Nat.ltb].
  rewrite !filter_from_delete by lia. rewrite !Nat.sub_0_r.
  repeat split.
  destruct (Nat.ltb_spec index
              (length (LifeBalance.activities (LifeBalance.data st))))
    as [Hlt|Hge].
  - rewrite length_delete by (apply lookup_lt_is_Some_2; exact Hlt). lia.
  - rewrite delete_take_drop, take_ge, drop_ge, app_nil_r by lia.
    reflexivity.
Qed.

(** Adding an activity or a goal whose text is blank after trimming does
    nothing at all; otherwise the trimmed text goes to the end of its list,
    the input is emptied, and removing the entry at the old length gives the
    list back. *)
Theorem add_appends_the_trimmed_text (trim : string -> string) st :
  let data := LifeBalance.data st in
  (if truthy (Some (trim (LifeBalance.newActivity st)))
   then
     LifeBalance.activities
       (LifeBalance.data (LifeBalanceForm.addActivity trim st))
     = LifeBalance.activities data ++ [trim (LifeBalance.newActivity st)]
     /\ LifeBalance.newActivity (LifeBalanceForm.addActivity trim st)
        = EmptyString
     /\ LifeBalance.goals
          (LifeBalance.data (LifeBalanceForm.addActivity trim st))
        = LifeBalance.goals data
     /\ LifeBalance.activities
          (LifeBalance.data
             (LifeBalanceForm.removeActivity
                (LifeBalanceForm.addActivity trim st)
                (length (LifeBalance.activities data))))
        = LifeBalance.activities data
   else LifeBalanceForm.addActivity trim st = st)
  /\ (if truthy (Some (trim (LifeBalance.newGoal st)))
      then
        LifeBalance.goals
          (LifeBalance.data (LifeBalanceForm.addGoal trim st))
        = LifeBalance.goals data ++ [trim (LifeBalance.newGoal st)]
        /\ LifeBalance.newGoal (LifeBalanceForm.addGoal trim st)
           = EmptyString
        /\ LifeBalance.activities
             (LifeBalance.data (LifeBalanceForm.addGoal trim st))
           = LifeBalance.activities data
        /\ LifeBalance.goals
             (LifeBalance.data
                (LifeBalanceForm.removeGoal
                   (LifeBalanceForm.addGoal trim st)
                   (length (LifeBalance.goals data))))
           = LifeBalance.goals data
      else LifeBalanceForm.addGoal trim st = st).
Proof.
  cbv zeta. unfold LifeBalanceForm.addActivity, LifeBalanceForm.addGoal.
  split.
  - destruct (truthy (Some (trim (LifeBalance.newActivity st))));
      [|reflexivity].
    repeat split.
    unfold LifeBalanceForm.removeActivity, LifeBalanceForm.setData,
      LifeBalanceForm.setNewActivity. cbn.
    rewrite filter_from_delete by lia. rewrite Nat.sub_0_r.
    rewrite delete_middle. apply app_nil_r.
  - destruct (truthy (Some (trim (LifeBalance.newGoal st))));
      [|reflexivity].
    repeat split.
    unfold LifeBalanceForm.removeGoal, LifeBalanceForm.setData,
      LifeBalanceForm.setNewGoal. cbn.
    rewrite filter_from_delete by lia. rewrite Nat.sub_0_r.
    rewrite delete_middle. apply app_nil_r.
Qed.

(** ** More scenarios, run *)

Lemma backend_ok_never_401 : never_401 backend_ok.
Proof. intros history request r [= <-]. discriminate. Qed.

Lemma answer_other_than_401_is_final_witness :
  localStorage (api backend_500 logged_in me).1 = localStorage logged_in
  /\ location_href (api backend_500 logged_in me).1 = "/dashboard"
  /\ length (network (api backend_500 logged_in me).1) = 1%nat
  /\ (api backend_500 logged_in me).2
     = inr (AxiosError (request_interceptor logged_in me) (Some server_error)).
Proof.
  destruct (answer_other_than_401_is_final backend_500 logged_in me)
    as (Hstore & Hhref & Hnet & Hresult).
  { intros r [= <-]. discriminate. }
  rewrite Hstore, Hhref, Hnet, Hresult. repeat split.
Defined.

Lemma api_touches_only_the_token_keys_witness :
  getItem
    (api backend_expired (setItem logged_in "theme" "dark") me).1 "theme"
  = Some "dark".
Proof.
  rewrite (proj1 (api_touches_only_the_token_keys backend_expired
                    (setItem logged_in "theme" "dark") me) "theme");
    [reflexivity | discriminate | discriminate].
Defined.

Lemma refresh_without_token_field_stores_undefined_witness :
  getItem (api backend_malformed logged_in me).1 "access_token"
  = Some "undefined".
Proof.
  apply (refresh_without_token_field_stores_undefined backend_malformed
           logged_in me unauthorized
           (mkResponse 200 (JObj [("token", JStr "new")])));
    reflexivity.
Defined.

Lemma refresh_with_null_body_drops_session_witness :
  getItem (api backend_empty_refresh logged_in me).1 "access_token" = None
  /\ getItem (api backend_empty_refresh logged_in me).1 "refresh_token" = None
  /\ location_href (api backend_empty_refresh logged_in me).1 = "/login"
  /\ (api backend_empty_refresh logged_in me).2 = inr TypeError.
Proof.
  destruct (refresh_with_null_body_drops_session backend_empty_refresh
              logged_in me unauthorized (mkResponse 200 JNull)
              eq_refl eq_refl eq_refl eq_refl eq_refl (or_introl eq_refl))
    as (Ha & Hr & Hh & _ & Hres).
  auto.
Defined.

Lemma request_interceptor_changes_only_authorization_witness :
  headers (request_interceptor logged_in me) !! "Content-Type"
  = Some "application/json".
Proof.
  destruct (request_interceptor_changes_only_authorization logged_in me)
    as (_ & _ & _ & _ & _ & Hh & _).
  rewrite Hh by discriminate. reflexivity.
Defined.

Lemma session_operations_never_store_tokens_witness :
  localStorage
    (AuthContext.login backend_ok None logged_out AuthContext.initial
       "ann" "secret").1.1
  = localStorage logged_out.
Proof.
  apply (proj1 (session_operations_never_store_tokens backend_ok None
                  backend_ok_never_401 logged_out AuthContext.initial)).
Defined.

Lemma login_does_not_use_the_returned_tokens_witness :
  let out := AuthContext.login backend_login None logged_out
               AuthContext.initial "ann" "secret" in
  out.2 = inl JUndefined
  /\ localStorage out.1.1 = ∅
  /\ AuthContext.user out.1.2 = data profile
  /\ AuthContext.navigated out.1.2 = ["/dashboard"]
  /\ App.root_redirect out.1.1 = "/login".
Proof.
  intros out.
  destruct (login_does_not_use_the_returned_tokens backend_login None
              logged_out AuthContext.initial "ann" "secret"
              issued_tokens profile eq_refl eq_refl eq_refl eq_refl)
    as (Hres & Hstore & _ & _ & Huser & Hnav & Hroot).
  fold out in Hres, Hstore, Huser, Hnav, Hroot.
  repeat split; assumption.
Defined.

Lemma ai_facades_post_once_and_return_the_body_witness :
  single_post backend_ok None logged_in "/api/email/summarize"
    (JObj [("content", JStr "Test Content"); ("subject", JUndefined)])
    (emailAI.summarize backend_ok None logged_in "Test Content" None).
Proof.
  apply (proj1 (ai_facades_post_once_and_return_the_body backend_ok None
                  backend_ok_never_401 logged_in)
               "Test Content" None).
Defined.

Lemma action_succeeds_iff_every_body_is_usable_witness :
  Forall usable (EmailAnalysis.batch emailAI_ok email_typed)
  /\ ~ Forall usable (EmailAnalysis.batch emailAI_failing email_typed).
Proof.
  split.
  - apply (proj1 (proj1 action_succeeds_iff_every_body_is_usable
                    emailAI_ok email_typed)).
    reflexivity.
  - intros H.
    apply (proj2 (proj1 action_succeeds_iff_every_body_is_usable
                    emailAI_failing email_typed)) in H.
    discriminate H.
Defined.

Lemma fulfilled_batch_fills_the_result_witness :
  EmailAnalysis.result (EmailAnalysis.handleAnalyze emailAI_ok email_typed)
  = Some (EmailAnalysis.mkAnalysisResult
            (JStr "Email summary") (JStr "positive") (JStr "high")
            (JArr [JStr "Action 1"; JStr "Action 2"])
            (JArr [JStr "Reply 1"; JStr "Reply 2"])).
Proof.
  apply (proj1 fulfilled_batch_fills_the_result emailAI_ok email_typed
           _ _ _ _ _ eq_refl).
Defined.

Lemma rejected_batch_logs_the_first_rejection_witness :
  exists e,
    earliest_rejection (EmailAnalysis.batch emailAI_failing email_typed) e
    /\ EmailAnalysis.console_error
         (EmailAnalysis.handleAnalyze emailAI_failing email_typed)
       = [("Analysis failed:", e)].
Proof.
  apply (proj1 rejected_batch_logs_the_first_rejection
           emailAI_failing email_typed
           (EmailAnalysis.summarize emailAI_failing "Test Content"
                                    "Test Subject")
           api_error).
  - left. reflexivity.
  - reflexivity.
Defined.
